(** * dog-dash verification scripts: a shallow embedding

    The repository's [verification/] directory holds six Python scripts that
    drive the game through a browser-automation library: launch a browser,
    open a page, navigate, wait, click, press a key, evaluate a script, take
    a screenshot, and close the browser.

    The scripts are embedded as computations in a state-and-exception monad
    [M].  The browser, the page and the game are an external collaborator:
    they are represented by an environment [Env] that answers every call the
    scripts make, and by a small model of the page (elements, boxes, stacking
    order) on which the outcome of selector waits, clicks and the injected
    script is computed.

    Layout: the data model and the monad; the library's primitives over the
    page model; the six scripts, line by line; step logs, fixtures and the
    predicates the properties are stated with; then the proofs.  Three proof
    methods are used: a compositional judgement [runs] for straight-line
    step sequences, weakest preconditions [wp] for whole runs against an
    arbitrary environment, and a simulation [alike] between a run and the
    same run against a silent page. *)

From stdpp Require Import base strings pretty list gmap.
From Stdlib Require Import Ascii ZArith Lia.

Local Open Scope string_scope.
Local Open Scope Z_scope.
Local Open Scope list_scope.

(** ** Errors and exceptions *)

(** The error kinds of the harness. *)
Inductive ErrorKind :=
  | LaunchError | NavigationError | TimeoutError | InteractionError | PageCrash.

(** Python exceptions the scripts can see.  An error raised by the automation
    library is an [Exception]; [SystemExit], raised by [sys.exit], is a
    [BaseException] and is not caught by [except Exception]. *)
Inductive exn :=
  | PwError (kind : ErrorKind) (message : string)
  | SystemExit (code : Z).

Definition is_Exception (e : exn) : bool :=
  match e with PwError _ _ => true | SystemExit _ => false end.

(** [str(e)] / [f"{e}"]. *)
Definition str_exn (e : exn) : string :=
  match e with
  | PwError _ m => m
  | SystemExit c => pretty c
  end.

Inductive Result (A : Type) :=
  | Ok (a : A)
  | Raise (e : exn).
Arguments Ok {A} a.
Arguments Raise {A} e.

(** ** The page *)

Record Box := { box_x : Z; box_y : Z; box_w : Z; box_h : Z }.

Record Element := {
  el_tag : string;
  el_id : string;
  el_shown : bool;      (* not hidden by style *)
  el_box : Box;         (* bounding box on screen *)
  el_z : Z;             (* stacking order: greater is painted on top *)
  el_text : string
}.

Record PageState := {
  dom : list Element;
  html : string;        (* what [page.content()] returns *)
  pixels : string       (* what a screenshot captures *)
}.

(** Console messages and uncaught page errors, as the listeners get them. *)
Record ConsoleMsg := { msg_type : string; msg_text : string }.

Inductive PageEvent :=
  | EvConsole (msg : ConsoleMsg)
  | EvPageError (exc : string).

(** The scripts inject two script bodies with [page.evaluate]:
    ["document.getElementById('instructions').click()"] in the horizon
    script, and a body made of comments only in the waterfall script. *)
Inductive JsExpr :=
  | GetElementById (id : string).

Inductive Js :=
  | JsCommentsOnly
  | JsCallClick (target : JsExpr).

(** ** Calls into the automation library *)

Inductive Call :=
  | SyncPlaywrightEnter
  | SyncPlaywrightExit
  | Launch (headless : option bool)
  | NewContext
  | NewPage
  | Close
  | Goto (url : string)
  | WaitForSelector (selector : string) (timeout : option Z)
  | WaitForTimeout (ms : Z)
  | Click (selector : string) (force : bool)
  | Press (key : string)
  | Evaluate (script : Js)
  | Screenshot (path : string)
  | InnerText (selector : string)
  | IsVisible (selector : string)
  | Content
  | Sleep (seconds : Z).

#[global] Instance ErrorKind_eq_dec : EqDecision ErrorKind.
Proof. solve_decision. Defined.
#[global] Instance JsExpr_eq_dec : EqDecision JsExpr.
Proof. solve_decision. Defined.
#[global] Instance Js_eq_dec : EqDecision Js.
Proof. solve_decision. Defined.
#[global] Instance Call_eq_dec : EqDecision Call.
Proof. solve_decision. Defined.

(** The steps of a scenario are the page-level operations and the fixed
    delays; starting the driver, launching, opening the page and closing the
    browser are the session's lifecycle, not steps. *)
Definition is_step (c : Call) : bool :=
  match c with
  | SyncPlaywrightEnter | SyncPlaywrightExit
  | Launch _ | NewContext | NewPage | Close => false
  | _ => true
  end.

(** What the environment answers to one call: the events the page emits
    while the call is in progress, a fault of the backend if any (network
    failure, crashed page, ...), and the page as the call finds it (for a
    waiting call: as it is when the wait ends). *)
Record Response := {
  emitted : list PageEvent;
  fault : option (ErrorKind * string);
  page : PageState
}.

(** The environment is deterministic and may depend on everything the script
    has done so far. *)
Definition Env := list Call → Call → Response.

Inductive Value :=
  | VNone
  | VBool (b : bool)
  | VStr (s : string).

(** ** The state of a run *)

(** The interpreter-side state a listener can touch: standard output and the
    list object bound to [errors] in [verify_load]. *)
Record PyState := {
  stdout : list string;
  errors : list string
}.

Inductive Listener :=
  | OnConsole (h : ConsoleMsg → PyState → PyState)
  | OnPageError (h : string → PyState → PyState).

Inductive Lifecycle := Created | Launched | PageOpen | Closed.

Record World := {
  trace : list (Call * option ErrorKind);   (* calls made, oldest first *)
  listeners : list Listener;                (* in registration order *)
  py : PyState;
  fs : gmap string string;                  (* image files written *)
  clicks : list string;                     (* ids of elements that got a click *)
  lifecycle : Lifecycle;
  releases : nat                            (* times the browser process was released *)
}.

Definition set_trace (f : list (Call * option ErrorKind) → list (Call * option ErrorKind))
    (w : World) : World :=
  {| trace := f (trace w); listeners := listeners w; py := py w; fs := fs w;
     clicks := clicks w; lifecycle := lifecycle w; releases := releases w |}.

Definition set_listeners (f : list Listener → list Listener) (w : World) : World :=
  {| trace := trace w; listeners := f (listeners w); py := py w; fs := fs w;
     clicks := clicks w; lifecycle := lifecycle w; releases := releases w |}.

Definition set_py (f : PyState → PyState) (w : World) : World :=
  {| trace := trace w; listeners := listeners w; py := f (py w); fs := fs w;
     clicks := clicks w; lifecycle := lifecycle w; releases := releases w |}.

Definition set_fs (f : gmap string string → gmap string string) (w : World) : World :=
  {| trace := trace w; listeners := listeners w; py := py w; fs := f (fs w);
     clicks := clicks w; lifecycle := lifecycle w; releases := releases w |}.

Definition set_clicks (f : list string → list string) (w : World) : World :=
  {| trace := trace w; listeners := listeners w; py := py w; fs := fs w;
     clicks := f (clicks w); lifecycle := lifecycle w; releases := releases w |}.

Definition set_lifecycle (l : Lifecycle) (w : World) : World :=
  {| trace := trace w; listeners := listeners w; py := py w; fs := fs w;
     clicks := clicks w; lifecycle := l; releases := releases w |}.

Definition set_releases (n : nat) (w : World) : World :=
  {| trace := trace w; listeners := listeners w; py := py w; fs := fs w;
     clicks := clicks w; lifecycle := lifecycle w; releases := n |}.

(** A fresh process: nothing called, nothing printed, the files of earlier
    runs on disk. *)
Definition boot (disk : gmap string string) : World :=
  {| trace := []; listeners := []; py := {| stdout := []; errors := [] |};
     fs := disk; clicks := []; lifecycle := Created; releases := 0%nat |}.

Definition record (c : Call) (o : option ErrorKind) : World → World :=
  set_trace (λ t, t ++ [(c, o)]).

Definition history (w : World) : list Call := (trace w).*1.

(** The step log: the scenario's steps with their outcomes. *)
Definition steps (w : World) : list (Call * option ErrorKind) :=
  List.filter (λ e, is_step e.1) (trace w).

(** ** The monad of scripts *)

Definition M (A : Type) : Type := World → Result A * World.

Definition ret {A} (a : A) : M A := λ w, (Ok a, w).

Definition bind {A B} (m : M A) (k : A → M B) : M B := λ w,
  match m w with
  | (Ok a, w') => k a w'
  | (Raise e, w') => (Raise e, w')
  end.

Definition raise {A} (e : exn) : M A := λ w, (Raise e, w).

#[global] Instance M_ret : MRet M := @ret.
#[global] Instance M_bind : MBind M := λ A B k m, bind m k.

(** [try: body except Exception as e: handler e]. *)
Definition try_except {A} (body : M A) (handler : exn → M A) : M A := λ w,
  match body w with
  | (Raise e, w') => if is_Exception e then handler e w' else (Raise e, w')
  | r => r
  end.

(** [try: body finally: fin]: [fin] runs on every way out of [body]. *)
Definition try_finally {A} (body : M A) (fin : M unit) : M A := λ w,
  let '(r, w') := body w in
  match fin w' with
  | (Ok _, w'') => (r, w'')
  | (Raise e, w'') => (Raise e, w'')
  end.

Definition print (line : string) : M unit := λ w,
  (Ok tt, set_py (λ s, {| stdout := stdout s ++ [line]; errors := errors s |}) w).

(** [sys.exit(code)]. *)
Definition sys_exit {A} (code : Z) : M A := raise (SystemExit code).

(** [for x in xs: body x]. *)
Fixpoint for_each {A} (xs : list A) (body : A → M unit) : M unit :=
  match xs with
  | [] => ret tt
  | x :: xs' => body x ;; for_each xs' body
  end.

(** ** What the page does with a call *)

(** Selectors as the scripts write them: ["#name"] selects by id, a bare
    word selects by tag. *)
Definition matches (selector : string) (e : Element) : bool :=
  match selector with
  | String "#"%char name => bool_decide (el_id e = name)
  | _ => bool_decide (el_tag e = selector)
  end.

Definition query (selector : string) (d : list Element) : option Element :=
  List.find (matches selector) d.

Definition visible (e : Element) : bool :=
  el_shown e && (0 <? box_w (el_box e)) && (0 <? box_h (el_box e)).

Definition center (b : Box) : Z * Z :=
  (box_x b + box_w b / 2, box_y b + box_h b / 2).

Definition inside (p : Z * Z) (b : Box) : bool :=
  (box_x b <=? p.1) && (p.1 <? box_x b + box_w b) &&
  (box_y b <=? p.2) && (p.2 <? box_y b + box_h b).

(** Box [a] lies within box [b]. *)
Definition within (a b : Box) : bool :=
  (box_x b <=? box_x a) && (box_x a + box_w a <=? box_x b + box_w b) &&
  (box_y b <=? box_y a) && (box_y a + box_h a <=? box_y b + box_h b).

(** [o] fully covers [t]: it is displayed, painted above [t], and occupies
    at least the screen region of [t]. *)
Definition covers (o t : Element) : bool :=
  visible o && (el_z t <? el_z o) && within (el_box t) (el_box o).

(** Something painted above [t] sits on the point a click on [t] is aimed
    at. *)
Definition obscured (t : Element) (d : list Element) : bool :=
  existsb (λ o, visible o && (el_z t <? el_z o) && inside (center (el_box t)) (el_box o)) d.

Definition actionable (t : Element) (d : list Element) : bool :=
  visible t && negb (obscured t d).

Definition dispatch_click (e : Element) : World → World :=
  set_clicks (λ l, l ++ [el_id e]).

(** Modelled from the spec: the click primitive of the session belongs to
    the automation library and is not part of the sources.  Section 4.1:
    [click(selector, force)] dispatches a click; [force = true] bypasses the
    normal actionability checks (visibility, not-obscured); section 8: the
    unforced click on a covered element fails or times out.  A click waits
    for its element like a selector wait does. *)
Definition click (selector : string) (force : bool) (pg : PageState) (w : World)
    : (Value * World) + (ErrorKind * string) :=
  match query selector (dom pg) with
  | None => inr (TimeoutError, "Timeout exceeded waiting for " +:+ selector)
  | Some e =>
      if force then inl (VNone, dispatch_click e w)
      else if actionable e (dom pg) then inl (VNone, dispatch_click e w)
      else inr (TimeoutError, "Timeout exceeded: " +:+ selector +:+ " is not actionable")
  end.

(** The injected script runs inside the page, on its document. *)
Definition js_eval (e : JsExpr) (d : list Element) : option Element :=
  match e with
  | GetElementById id => List.find (λ el, bool_decide (el_id el = id)) d
  end.

(** Modelled from the spec: [page.evaluate] belongs to the automation
    library and the script runs inside the browser.  Section 4.2: Evaluate
    has direct access to the page's document and propagates an error thrown
    in the page as InteractionError.  In the page, [x.click()] dispatches a
    click on whatever element [x] is, and throws when [x] is null. *)
Definition evaluate (script : Js) (pg : PageState) (w : World)
    : (Value * World) + (ErrorKind * string) :=
  match script with
  | JsCommentsOnly => inl (VNone, w)
  | JsCallClick target =>
      match js_eval target (dom pg) with
      | Some el => inl (VNone, dispatch_click el w)
      | None => inr (InteractionError,
                     "TypeError: Cannot read properties of null (reading 'click')")
      end
  end.

(** Modelled from the spec: the primitives of the session (section 4.1)
    belong to the automation library.  A selector wait fails with
    TimeoutError when no matching element exists; a screenshot writes the
    image file at its path; reading text and visibility query the page. *)
Definition effect (c : Call) (pg : PageState) (w : World)
    : (Value * World) + (ErrorKind * string) :=
  match c with
  | Launch _ => inl (VNone, set_lifecycle Launched w)
  | NewPage => inl (VNone, set_lifecycle PageOpen w)
  | WaitForSelector selector _ =>
      match query selector (dom pg) with
      | Some _ => inl (VNone, w)
      | None => inr (TimeoutError, "Timeout exceeded waiting for " +:+ selector)
      end
  | Click selector force => click selector force pg w
  | Evaluate script => evaluate script pg w
  | Screenshot path => inl (VNone, set_fs (insert path (pixels pg)) w)
  | InnerText selector =>
      match query selector (dom pg) with
      | Some e => inl (VStr (el_text e), w)
      | None => inr (TimeoutError, "Timeout exceeded waiting for " +:+ selector)
      end
  | IsVisible selector =>
      inl (VBool (from_option visible false (query selector (dom pg))), w)
  | Content => inl (VStr (html pg), w)
  | _ => inl (VNone, w)
  end.

(** ** Delivery of page events to the registered listeners *)

Definition notify (ev : PageEvent) (l : Listener) (s : PyState) : PyState :=
  match ev, l with
  | EvConsole m, OnConsole h => h m s
  | EvPageError x, OnPageError h => h x s
  | _, _ => s
  end.

Definition dispatch (ls : list Listener) (s : PyState) (ev : PageEvent) : PyState :=
  foldl (λ s' l, notify ev l s') s ls.

Definition deliver (evs : list PageEvent) (w : World) : World :=
  set_py (λ s, foldl (dispatch (listeners w)) s evs) w.

(** Modelled from the spec: [close] of the session belongs to the automation
    library and is not part of the sources.  Section 4.1: [close()] is
    idempotent and releases the browser process; section 3: the lifecycle
    states are Created, Launched, PageOpen, Closed. *)
Definition close (w : World) : World :=
  match lifecycle w with
  | Closed => w
  | _ => set_releases (S (releases w)) (set_lifecycle Closed w)
  end.

(** Modelled from the spec: the exit of the [sync_playwright()] context
    manager belongs to the automation library.  Section 4.1: the session is
    acquired under a scoped-acquisition discipline and its release is
    guaranteed regardless of how the enclosing run terminates.  Leaving the
    [with] block stops the driver, and with it the browser the driver
    launched if that browser is still running; when no browser was launched
    or it has been closed already there is nothing left to release. *)
Definition stop_driver (w : World) : World :=
  match lifecycle w with
  | Launched | PageOpen => close w
  | Created | Closed => w
  end.

(** Modelled from the spec: [with sync_playwright() as p: body], whose entry
    and exit belong to the automation library (section 4.1, scoped
    acquisition).  The driver is started on entry and stopped, by
    [stop_driver], on every way out of [body], whether it returns or
    raises. *)
Definition with_sync_playwright {A} (body : M A) : M A := λ w,
  let '(r, w') := body (record SyncPlaywrightEnter None w) in
  (r, record SyncPlaywrightExit None (stop_driver w')).

Section Scripts.

Variable env : Env.

(** One call into the library: the page's events reach the listeners while
    the call is in progress, then the call returns or raises. *)
Definition api (c : Call) : M Value := λ w,
  let r := env (history w) c in
  let w1 := deliver (emitted r) w in
  match fault r with
  | Some (k, m) => (Raise (PwError k m), record c (Some k) w1)
  | None =>
      match effect c (page r) w1 with
      | inl (v, w2) => (Ok v, record c None w2)
      | inr (k, m) => (Raise (PwError k m), record c (Some k) w1)
      end
  end.

Definition launch (headless : option bool) : M Value := api (Launch headless).
Definition new_context : M Value := api NewContext.
Definition new_page : M Value := api NewPage.
Definition page_goto (url : string) : M Value := api (Goto url).
Definition page_wait_for_selector (selector : string) (timeout : option Z) : M Value :=
  api (WaitForSelector selector timeout).
Definition page_wait_for_timeout (ms : Z) : M Value := api (WaitForTimeout ms).
Definition page_click (selector : string) : M Value := api (Click selector false).
Definition locator_click (selector : string) (force : bool) : M Value :=
  api (Click selector force).
Definition keyboard_press (key : string) : M Value := api (Press key).
Definition page_evaluate (script : Js) : M Value := api (Evaluate script).
Definition page_screenshot (path : string) : M Value := api (Screenshot path).

Definition locator_inner_text (selector : string) : M string :=
  v ← api (InnerText selector);
  mret (match v with VStr s => s | _ => "" end).

Definition page_is_visible (selector : string) : M bool :=
  v ← api (IsVisible selector);
  mret (match v with VBool b => b | _ => false end).

Definition page_content : M string :=
  v ← api Content;
  mret (match v with VStr s => s | _ => "" end).

(** [page.on(...)]: the listener is added after those already registered. *)
Definition page_on (l : Listener) : M unit := λ w,
  (Ok tt, set_listeners (λ ls, ls ++ [l]) w).

(** [time.sleep]: the interpreter blocks; no call reaches the library, no
    event is delivered, nothing can be raised. *)
Definition time_sleep (seconds : Z) : M unit := λ w,
  (Ok tt, record (Sleep seconds) None w).

Definition browser_close : M unit := λ w, (Ok tt, record Close None (close w)).

Definition new_errors_list : M unit := λ w,
  (Ok tt, set_py (λ s, {| stdout := stdout s; errors := [] |}) w).

Definition read_errors : M (list string) := λ w, (Ok (errors (py w)), w).

(** [errors.append(x)], as the listeners of [verify_load] do it. *)
Definition errors_append (x : string) (s : PyState) : PyState :=
  {| stdout := stdout s; errors := errors s ++ [x] |}.

Definition py_print (line : string) (s : PyState) : PyState :=
  {| stdout := stdout s ++ [line]; errors := errors s |}.

Definition str_bool (b : bool) : string := if b then "True" else "False".

(** [needle in haystack] on strings. *)
Definition contains (needle haystack : string) : bool :=
  match String.index 0 needle haystack with Some _ => true | None => false end.

(** *** verify_asteroid.py *)

Definition verify_asteroids : M unit :=
  page_goto "http://localhost:4173" ;;
  page_wait_for_selector "canvas" None ;;
  page_click "#instructions" ;;
  page_wait_for_timeout 2000 ;;
  page_screenshot "verification/level1.png" ;;
  print "Screenshot taken.".

Definition verify_asteroid_main : M unit :=
  with_sync_playwright (
    launch (Some true) ;;
    new_page ;;
    try_finally verify_asteroids browser_close).

(** *** verify_horizon.py *)

Definition click_instructions_js : Js :=
  JsCallClick (GetElementById "instructions").

(** [lambda msg: print(f"Console: {msg.text}")] *)
Definition horizon_console_handler (msg : ConsoleMsg) : PyState → PyState :=
  py_print ("Console: " +:+ msg_text msg).

Definition verify_horizon : M unit :=
  page_on (OnConsole horizon_console_handler) ;;
  page_goto "http://localhost:4173" ;;
  page_wait_for_selector "#glCanvas" None ;;
  page_wait_for_timeout 4000 ;;
  visible ← page_is_visible "#instructions";
  print ("Instructions visible: " +:+ str_bool visible) ;;
  print "Clicking instructions via JS..." ;;
  page_evaluate click_instructions_js ;;
  page_wait_for_timeout 2000 ;;
  print "Taking screenshot..." ;;
  page_screenshot "verification/level3_horizon.png" ;;
  print "Level 3 screenshot taken".

Definition verify_horizon_main : M unit :=
  with_sync_playwright (
    launch None ;;
    new_page ;;
    try_finally
      (try_except verify_horizon (λ e, print ("Error: " +:+ str_exn e)))
      browser_close).

(** *** verify_level_2.py *)

Definition verify_level_2 : M unit :=
  page_goto "http://localhost:4173" ;;
  page_wait_for_selector "#instructions" None ;;
  page_click "#instructions" ;;
  page_wait_for_timeout 3000 ;;
  page_screenshot "verification/level2_asteroids.png" ;;
  level_text ← locator_inner_text "#level-display";
  print ("Level Text: " +:+ level_text).

Definition verify_level_2_main : M unit :=
  with_sync_playwright (
    launch (Some true) ;;
    new_page ;;
    try_finally verify_level_2 browser_close).

(** *** verify_load.py *)

(** [lambda msg: errors.append(msg.text) if msg.type == "error" else None] *)
Definition load_console_handler (msg : ConsoleMsg) (s : PyState) : PyState :=
  if bool_decide (msg_type msg = "error") then errors_append (msg_text msg) s else s.

(** [lambda exc: errors.append(str(exc))] *)
Definition load_pageerror_handler (exc : string) : PyState → PyState :=
  errors_append exc.

(** The body of the [try] block. *)
Definition verify_load_body : M unit :=
  print "Navigating to app..." ;;
  page_goto "http://localhost:4173" ;;
  print "Waiting for canvas..." ;;
  page_wait_for_selector "#glCanvas" (Some 10000) ;;
  time_sleep 2 ;;
  print "Taking screenshot..." ;;
  page_screenshot "verification/screenshot.png" ;;
  content ← page_content;
  (if contains "WebGPU not supported" content
   then print "WebGPU not supported warning found (Expected in this env)."
   else mret tt) ;;
  errs ← read_errors;
  match errs with
  | _ :: _ =>
      print "Console Errors found:" ;;
      for_each errs (λ e, print ("- " +:+ e))
  | [] => print "No console errors."
  end.

Definition verify_load : M unit :=
  with_sync_playwright (
    launch (Some true) ;;
    new_page ;;
    new_errors_list ;;
    page_on (OnConsole load_console_handler) ;;
    page_on (OnPageError load_pageerror_handler) ;;
    try_finally
      (try_except verify_load_body
         (λ e, print ("Verification failed: " +:+ str_exn e) ;; sys_exit 1))
      browser_close).

(** *** verify_reentry.py *)

Definition verify_reentry : M unit :=
  with_sync_playwright (
    launch (Some true) ;;
    new_context ;;
    new_page ;;
    page_goto "http://localhost:4173" ;;
    page_wait_for_timeout 5000 ;;
    locator_click "#instructions" true ;;
    page_wait_for_timeout 1000 ;;
    keyboard_press "h" ;;
    page_wait_for_timeout 2000 ;;
    page_screenshot "verification/reentry_effect.png" ;;
    browser_close).

(** *** verify_waterfall.py *)

(** The body of the [try] block of [run]. *)
Definition run_body : M unit :=
  page_goto "http://localhost:4173" ;;
  page_wait_for_selector "#glCanvas" None ;;
  page_click "#instructions" ;;
  page_evaluate JsCommentsOnly ;;
  time_sleep 2 ;;
  page_screenshot "verification/level1.png" ;;
  print "Screenshot Level 1 taken".

Definition run : M unit :=
  with_sync_playwright (
    launch (Some true) ;;
    new_page ;;
    try_except run_body (λ e, print ("Error: " +:+ str_exn e)) ;;
    browser_close).

End Scripts.

(** ** Scenarios and step logs *)

(** The five scenario bodies of the repository: the functions that take the
    page, and the [try] blocks of [verify_load] and [run]. *)
Inductive Scenario := Asteroids | Horizon | Level2 | Load | Waterfall.

Definition scenario (env : Env) (s : Scenario) : M unit :=
  match s with
  | Asteroids => verify_asteroids env
  | Horizon => verify_horizon env
  | Level2 => verify_level_2 env
  | Load => verify_load_body env
  | Waterfall => run_body env
  end.

(** The steps of each scenario, in the order the source writes them. *)
Definition plan (s : Scenario) : list Call :=
  match s with
  | Asteroids =>
      [Goto "http://localhost:4173"; WaitForSelector "canvas" None;
       Click "#instructions" false; WaitForTimeout 2000;
       Screenshot "verification/level1.png"]
  | Horizon =>
      [Goto "http://localhost:4173"; WaitForSelector "#glCanvas" None;
       WaitForTimeout 4000; IsVisible "#instructions";
       Evaluate click_instructions_js; WaitForTimeout 2000;
       Screenshot "verification/level3_horizon.png"]
  | Level2 =>
      [Goto "http://localhost:4173"; WaitForSelector "#instructions" None;
       Click "#instructions" false; WaitForTimeout 3000;
       Screenshot "verification/level2_asteroids.png"; InnerText "#level-display"]
  | Load =>
      [Goto "http://localhost:4173"; WaitForSelector "#glCanvas" (Some 10000);
       Sleep 2; Screenshot "verification/screenshot.png"; Content]
  | Waterfall =>
      [Goto "http://localhost:4173"; WaitForSelector "#glCanvas" None;
       Click "#instructions" false; Evaluate JsCommentsOnly; Sleep 2;
       Screenshot "verification/level1.png"]
  end.

(** Log entries of steps that went through. *)
Definition passed (cs : list Call) : list (Call * option ErrorKind) :=
  (λ c, (c, None)) <$> cs.

(** Index, call and error kind of the first failed step of a log. *)
Fixpoint first_failure_from (i : nat) (log : list (Call * option ErrorKind))
    : option (nat * Call * ErrorKind) :=
  match log with
  | [] => None
  | (c, Some k) :: _ => Some (i, c, k)
  | (_, None) :: log' => first_failure_from (S i) log'
  end.

Definition first_failure := first_failure_from 0.

(** The steps a computation attempts when started in [w]. *)
Definition attempted {A} (m : M A) (w : World) : list (Call * option ErrorKind) :=
  drop (length (steps w)) (steps (m w).2).

(** How a straight-line sequence of steps can go: all of [todo] pass and the
    computation returns, or one step fails, the steps before it passed, and
    the computation raises what the step raised. *)
Inductive attempt {A} (todo : list Call)
    : Result A → list (Call * option ErrorKind) → Prop :=
  | attempt_all a : attempt todo (Ok a) (passed todo)
  | attempt_stop done c rest k m :
      todo = done ++ c :: rest →
      attempt todo (Raise (PwError k m)) (passed done ++ [(c, Some k)]).

Definition runs {A} (m : M A) (todo : list Call) : Prop :=
  ∀ w, ∃ log, steps (m w).2 = steps w ++ log ∧ attempt todo (m w).1 log.

(** ** Fixtures: concrete pages and environments *)

Definition viewport : Box := {| box_x := 0; box_y := 0; box_w := 800; box_h := 600 |}.

Definition canvas_el : Element :=
  {| el_tag := "canvas"; el_id := "glCanvas"; el_shown := true;
     el_box := viewport; el_z := 0; el_text := "" |}.

Definition instructions_el : Element :=
  {| el_tag := "div"; el_id := "instructions"; el_shown := true;
     el_box := {| box_x := 200; box_y := 150; box_w := 400; box_h := 300 |};
     el_z := 1; el_text := "Click to start" |}.

(** The full-viewport transparent layer the game puts over everything. *)
Definition overlay_el : Element :=
  {| el_tag := "div"; el_id := "interaction-layer"; el_shown := true;
     el_box := viewport; el_z := 2; el_text := "" |}.

Definition level_display_el : Element :=
  {| el_tag := "div"; el_id := "level-display"; el_shown := true;
     el_box := {| box_x := 10; box_y := 10; box_w := 120; box_h := 20 |};
     el_z := 1; el_text := "Level 1" |}.

Definition game_page : PageState :=
  {| dom := [canvas_el; instructions_el; level_display_el];
     html := "<html><canvas id='glCanvas'></canvas></html>"; pixels := "frame-1" |}.

Definition covered_page : PageState :=
  {| dom := [canvas_el; instructions_el; overlay_el];
     html := "<html><canvas id='glCanvas'></canvas></html>"; pixels := "frame-1" |}.

Definition blank_page : PageState := {| dom := []; html := ""; pixels := "" |}.

Definition quiet (pg : PageState) : Response :=
  {| emitted := []; fault := None; page := pg |}.

(** Every call goes through and the page says nothing. *)
Definition calm : Env := λ _ _, quiet game_page.

(** The same game a moment later: the canvas shows another frame. *)
Definition calm_later : Env := λ _ _,
  quiet {| dom := dom game_page; html := html game_page; pixels := "frame-2" |}.

(** The server is down: navigation fails. *)
Definition unreachable : Env := λ _ c,
  match c with
  | Goto _ => {| emitted := []; fault := Some (NavigationError, "net::ERR_CONNECTION_REFUSED");
                 page := blank_page |}
  | _ => quiet blank_page
  end.

(** The page logs a warning and an error and throws while it loads, and the
    canvas never appears. *)
Definition flaky : Env := λ _ c,
  match c with
  | Goto _ =>
      {| emitted := [EvConsole {| msg_type := "warning"; msg_text := "slow frame" |};
                     EvConsole {| msg_type := "error"; msg_text := "shader failed" |};
                     EvPageError "ReferenceError: levelManager is not defined"];
         fault := None; page := blank_page |}
  | _ => quiet blank_page
  end.

(** The page throws an uncaught exception while it loads, and goes on
    working. *)
Definition throwing : Env := λ _ c,
  match c with
  | Goto _ =>
      {| emitted := [EvPageError "ReferenceError: levelManager is not defined"];
         fault := None; page := game_page |}
  | _ => quiet game_page
  end.

(** The page is up but has no instructions element. *)
Definition no_instructions : Env := λ _ _,
  quiet {| dom := [canvas_el]; html := ""; pixels := "frame-1" |}.

(** The instructions panel is in the document but hidden by style, and lies
    under the transparent layer. *)
Definition hidden_instructions_el : Element :=
  {| el_tag := "div"; el_id := "instructions"; el_shown := false;
     el_box := {| box_x := 200; box_y := 150; box_w := 400; box_h := 300 |};
     el_z := 1; el_text := "Click to start" |}.

Definition veiled : Env := λ _ _,
  quiet {| dom := [canvas_el; hidden_instructions_el; overlay_el];
           html := ""; pixels := "frame-1" |}.

(** A disk on which earlier runs have left two images. *)
Definition used_disk : gmap string string :=
  {[ "verification/level1.png" := "frame-0"; "verification/other.png" := "kept" ]}.

(** The instructions panel lies under the transparent layer. *)
Definition layered : Env := λ _ _, quiet covered_page.

(** ** What the claims talk about *)

(** Weakest precondition of a run: [Q] holds of the way [m] ends when started
    in [w]. *)
Definition wp {A} (m : M A) (w : World) (Q : Result A → World → Prop) : Prop :=
  Q (m w).1 (m w).2.
Arguments wp : simpl never.

(** Calls made on the page through the library; these are the calls during
    which the page's events reach the listeners of the page. *)
Definition on_page (c : Call) : bool :=
  match c with
  | Sleep _ => false
  | _ => is_step c
  end.

(** The events the page emits during the page calls of a run, given the
    calls made before ([past]) and the calls of the run, oldest first. *)
Fixpoint heard (env : Env) (past calls : list Call) : list PageEvent :=
  match calls with
  | [] => []
  | c :: calls' =>
      (if on_page c then emitted (env past c) else []) ++ heard env (past ++ [c]) calls'
  end.

Definition event_text (ev : PageEvent) : string :=
  match ev with
  | EvConsole m => msg_text m
  | EvPageError x => x
  end.

(** What the two listeners of [verify_load] keep of an event. *)
Definition kept (ev : PageEvent) : option string :=
  match ev with
  | EvConsole m => if bool_decide (msg_type m = "error") then Some (msg_text m) else None
  | EvPageError x => Some x
  end.

(** The same environment with a silent page. *)
Definition mute (env : Env) : Env := λ past c,
  {| emitted := []; fault := fault (env past c); page := page (env past c) |}.

(** C2 as the spec words it: a failed step never ends the process with an
    exception; the script returns. *)
Definition step_failure_contained (script : M unit) (w : World) : Prop :=
  ∀ i c k, first_failure (steps (script w).2) = Some (i, c, k) → (script w).1 = Ok tt.

(** C4 as the spec words it: once a page error has been observed during a
    call, no later call of the run is a step. *)
Definition halts_on_page_error (env : Env) (w : World) : Prop :=
  ∀ n c x,
    history w !! n = Some c → on_page c = true →
    EvPageError x ∈ emitted (env (take n (history w)) c) →
    ∀ j c', (n < j)%nat → history w !! j = Some c' → is_step c' = false.

(** C5 as the spec words it: no event of the window is dropped. *)
Definition diagnostics_complete (env : Env) (w : World) : Prop :=
  ∀ ev, ev ∈ heard env [] (history w) → event_text ev ∈ errors (py w).

(** C6 as the spec words it: after a failed step the collected diagnostics
    are flushed and the pending screenshot is still attempted. *)
Definition abort_and_report (script : M unit) (shot : string) (w : World) : Prop :=
  ∀ i c k, first_failure (steps (script w).2) = Some (i, c, k) →
    (∀ e, e ∈ errors (py (script w).2) → ("- " +:+ e) ∈ stdout (py (script w).2)) ∧
    Screenshot shot ∈ history (script w).2.

(** C9 as the spec words it: the images of earlier runs are still there after
    the run. *)
Definition keeps_prior_images (script : M unit) (disk : gmap string string) : Prop :=
  ∀ p img, disk !! p = Some img → fs (script (boot disk)).2 !! p = Some img.

(** The run ended with what launching the browser or opening the page
    raised. *)
Definition launch_failed (w : World) (e : exn) : Prop :=
  steps w = [] ∧
  ∃ c k msg, e = PwError k msg ∧ is_step c = false ∧ (c, Some k) ∈ trace w.

(** Two states that agree on everything but what the listeners can touch
    (standard output, the [errors] list, the listeners themselves). *)
Definition sim (w1 w2 : World) : Prop :=
  trace w1 = trace w2 ∧ fs w1 = fs w2 ∧ clicks w1 = clicks w2 ∧
  lifecycle w1 = lifecycle w2 ∧ releases w1 = releases w2.

(** Two runs end the same way: both return, or both raise the same
    exception. *)
Definition same_outcome {A B} (r1 : Result A) (r2 : Result B) : Prop :=
  match r1, r2 with
  | Ok _, Ok _ => True
  | Raise e1, Raise e2 => e1 = e2
  | _, _ => False
  end.

(** [m1] and [m2] cannot be told apart by the calls they make and the way
    they end. *)
Definition alike {A B} (m1 : M A) (m2 : M B) : Prop :=
  ∀ w1 w2, sim w1 w2 →
    same_outcome (m1 w1).1 (m2 w2).1 ∧ sim (m1 w1).2 (m2 w2).2.

(** A computation that returns and touches nothing but the listeners'
    state. *)
Definition silent {A} (m : M A) : Prop :=
  ∀ w, (∃ a, (m w).1 = Ok a) ∧ sim (m w).2 w.

(** Progress lines [verify_load] has printed when step [i] fails. *)
Definition load_progress (i : nat) : list string :=
  ["Navigating to app..."] ++
  (if (1 <=? i)%nat then ["Waiting for canvas..."] else []) ++
  (if (3 <=? i)%nat then ["Taking screenshot..."] else []).

(** ** Further notions, for the properties of the scripts as wholes *)

(** The calls and the files of a script, and the way it ends, do not depend
    on what the page emits. *)
Definition unaffected (script : Env → M unit) (env : Env) (disk : gmap string string)
    : Prop :=
  (script env (boot disk)).1 = (script (mute env) (boot disk)).1 ∧
  trace (script env (boot disk)).2 = trace (script (mute env) (boot disk)).2 ∧
  fs (script env (boot disk)).2 = fs (script (mute env) (boot disk)).2 ∧
  clicks (script env (boot disk)).2 = clicks (script (mute env) (boot disk)).2 ∧
  releases (script env (boot disk)).2 = releases (script (mute env) (boot disk)).2.

(** The line the console listener of the horizon script prints for an event. *)
Definition console_line (ev : PageEvent) : option string :=
  match ev with
  | EvConsole m => Some ("Console: " +:+ msg_text m)
  | EvPageError _ => None
  end.

Definition is_console_line (line : string) : bool := String.prefix "Console: " line.

(** The report [verify_load] prints about the collected errors. *)
Definition errors_report (errs : list string) : list string :=
  match errs with
  | [] => ["No console errors."]
  | _ :: _ => "Console Errors found:" :: ((λ e, "- " +:+ e) <$> errs)
  end.

(** The calls [verify_load] has made when it asks for the page content. *)
Definition load_calls_before_content : list Call :=
  [SyncPlaywrightEnter; Launch (Some true); NewPage;
   Goto "http://localhost:4173"; WaitForSelector "#glCanvas" (Some 10000);
   Sleep 2; Screenshot "verification/screenshot.png"].

(** The calls [verify_level_2] has made when it reads the level display. *)
Definition level_2_calls_before_text : list Call :=
  [SyncPlaywrightEnter; Launch (Some true); NewPage;
   Goto "http://localhost:4173"; WaitForSelector "#instructions" None;
   Click "#instructions" false; WaitForTimeout 3000;
   Screenshot "verification/level2_asteroids.png"].

(** The calls [verify_horizon] has made when it asks whether the
    instructions are visible. *)
Definition horizon_calls_before_visible : list Call :=
  [SyncPlaywrightEnter; Launch None; NewPage;
   Goto "http://localhost:4173"; WaitForSelector "#glCanvas" None;
   WaitForTimeout 4000].

(** Calls of [browser.close()] made by a run. *)
Definition is_close (c : Call) : bool :=
  match c with Close => true | _ => false end.

Definition close_calls (w : World) : nat :=
  length (List.filter (λ e, is_close e.1) (trace w)).

(** Opening the page failed: the script ends with that exception, no step
    has run and [browser.close()] has not been called; the browser is
    released by the exit of the [with] block alone. *)
Definition bypasses_close (script : M unit) (disk : gmap string string) : Prop :=
  ∀ k, (NewPage, Some k) ∈ trace (script (boot disk)).2 →
    close_calls (script (boot disk)).2 = 0%nat ∧
    steps (script (boot disk)).2 = [] ∧
    (∃ msg, (script (boot disk)).1 = Raise (PwError k msg)) ∧
    lifecycle (script (boot disk)).2 = Closed ∧
    releases (script (boot disk)).2 = 1%nat.

(** The browser of a run is released exactly once when it was launched, and
    never when the launch failed. *)
Definition releases_browser (script : M unit) (disk : gmap string string) : Prop :=
  (∀ h, (Launch h, None) ∈ trace (script (boot disk)).2 →
     lifecycle (script (boot disk)).2 = Closed ∧
     releases (script (boot disk)).2 = 1%nat) ∧
  (∀ h k, (Launch h, Some k) ∈ trace (script (boot disk)).2 →
     lifecycle (script (boot disk)).2 = Created ∧
     releases (script (boot disk)).2 = 0%nat).

(** What the library raises, if anything, for the call [c] made after the
    calls [past]: the fault of the backend, or else the error the page
    gives the call.  Whether a call fails, and with what, depends on the page
    only, so the state handed to [effect] here is immaterial. *)
Definition raised (env : Env) (past : list Call) (c : Call)
    : option (ErrorKind * string) :=
  match fault (env past c) with
  | Some km => Some km
  | None =>
      match effect c (page (env past c)) (boot ∅) with
      | inr km => Some km
      | inl _ => None
      end
  end.

(** The calls a script has made when its first step begins. *)
Definition prelude (headless : option bool) : list Call :=
  [SyncPlaywrightEnter; Launch headless; NewPage].

(** The calls [verify_horizon] has made when it injects the click. *)
Definition horizon_calls_before_click : list Call :=
  [SyncPlaywrightEnter; Launch None; NewPage;
   Goto "http://localhost:4173"; WaitForSelector "#glCanvas" None;
   WaitForTimeout 4000; IsVisible "#instructions"].

(** A failed step leaves the script as the exception it raised, after the
    browser has been closed and with nothing printed. *)
Definition step_failure_propagates (script : M unit) (disk : gmap string string)
    : Prop :=
  ∀ i c k, first_failure (steps (script (boot disk)).2) = Some (i, c, k) →
    (∃ msg, (script (boot disk)).1 = Raise (PwError k msg)) ∧
    lifecycle (script (boot disk)).2 = Closed ∧
    releases (script (boot disk)).2 = 1%nat ∧
    stdout (py (script (boot disk)).2) = [].

(** The backend refuses to open a page. *)
Definition no_page : Env := λ _ c,
  match c with
  | NewPage => {| emitted := []; fault := Some (LaunchError, "Target closed");
                  page := blank_page |}
  | _ => quiet blank_page
  end.

(** A browser without WebGPU: the page says so in its content and logs it
    as a console error while it loads. *)
Definition without_webgpu : Env := λ _ c,
  let pg := {| dom := dom game_page;
               html := "<html><div>WebGPU not supported</div></html>";
               pixels := "frame-1" |} in
  match c with
  | Goto _ =>
      {| emitted := [EvConsole {| msg_type := "error";
                                  msg_text := "WebGPU not supported on this browser" |}];
         fault := None; page := pg |}
  | _ => quiet pg
  end.

(** The game is up but shows no level display. *)
Definition no_level_display : Env := λ _ _,
  quiet {| dom := [canvas_el; instructions_el]; html := ""; pixels := "frame-1" |}.

(** The only file a script can write is the image at [path]: it holds the
    screenshot when the Screenshot step went through, and the disk is as
    before otherwise. *)
Definition writes_only (env : Env) (script : M unit) (path : string)
    (disk : gmap string string) : Prop :=
  (∀ q, q ≠ path → fs (script (boot disk)).2 !! q = disk !! q) ∧
  ((Screenshot path, None) ∈ trace (script (boot disk)).2 →
     ∃ past, fs (script (boot disk)).2 !! path
             = Some (pixels (page (env past (Screenshot path))))) ∧
  ((Screenshot path, None) ∉ trace (script (boot disk)).2 →
     fs (script (boot disk)).2 = disk).

(** The calls [verify_asteroids] has made when it clicks the instructions. *)
Definition asteroid_calls_before_click : list Call :=
  [SyncPlaywrightEnter; Launch (Some true); NewPage;
   Goto "http://localhost:4173"; WaitForSelector "canvas" None].

(** * Proofs *)

(** ** Basic facts about traces and step logs *)

Lemma steps_record c o w :
  steps (record c o w) = steps w ++ (if is_step c then [(c, o)] else []).
Proof.
  unfold steps, record. cbn [trace set_trace]. by rewrite List.filter_app.
Qed.

Lemma effect_trace c pg w v w' : effect c pg w = inl (v, w') → trace w' = trace w.
Proof.
  destruct c; cbn; unfold click, evaluate; repeat case_match;
    intros; simplify_eq; done.
Qed.

Lemma first_failure_from_passed i cs : first_failure_from i (passed cs) = None.
Proof. revert i. induction cs as [|c cs IH]; intros i; cbn; [done|apply IH]. Qed.

Lemma first_failure_from_stop i done c k :
  first_failure_from i (passed done ++ [(c, Some k)]) = Some ((i + length done)%nat, c, k).
Proof.
  revert i. induction done as [|d done IH]; intros i; cbn.
  - by rewrite Nat.add_0_r.
  - rewrite IH. do 3 f_equal. lia.
Qed.

Lemma steps_same_trace w w' : trace w' = trace w → steps w' = steps w.
Proof. unfold steps. by intros ->. Qed.

Lemma passed_app cs ds : passed (cs ++ ds) = passed cs ++ passed ds.
Proof. apply fmap_app. Qed.

Lemma passed_calls cs : (passed cs).*1 = cs.
Proof. induction cs as [|c cs IH]; [done|]. cbn. f_equal. exact IH. Qed.

(** ** Straight-line sequences of steps stop at the first failure *)

Section StepLogs.

Context (env : Env).

Lemma runs_ret {A} (a : A) : runs (mret a : M A) [].
Proof.
  intros w. exists []. cbn. rewrite app_nil_r. split; [done|].
  apply (attempt_all [] a).
Qed.

(** A computation that leaves the trace alone and returns runs no step. *)
Lemma runs_quiet {A} (m : M A) :
  (∀ w, ∃ a w', m w = (Ok a, w') ∧ trace w' = trace w) → runs m [].
Proof.
  intros H w. destruct (H w) as (a & w' & -> & Ht). exists []. cbn.
  rewrite app_nil_r. split; [by apply steps_same_trace|].
  apply (attempt_all [] a).
Qed.

Lemma runs_print line : runs (print line) [].
Proof. apply runs_quiet. intros w. by eexists _, _. Qed.

Lemma runs_page_on l : runs (page_on l) [].
Proof. apply runs_quiet. intros w. by eexists _, _. Qed.

Lemma runs_read_errors : runs read_errors [].
Proof. apply runs_quiet. intros w. by eexists _, _. Qed.

Lemma runs_time_sleep s : runs (time_sleep s) [Sleep s].
Proof.
  intros w. exists [(Sleep s, None)]. unfold time_sleep. cbn [fst snd]. split.
  - by rewrite steps_record.
  - apply (attempt_all [Sleep s] tt).
Qed.

Lemma runs_api c : is_step c = true → runs (api env c) [c].
Proof.
  intros Hc w. unfold api.
  destruct (fault (env (history w) c)) as [[k m]|].
  - exists [(c, Some k)]. cbn [fst snd]. split.
    + rewrite steps_record, Hc. done.
    + by apply (attempt_stop [c] [] c [] k m).
  - destruct (effect c _ _) as [[v w2]|[k m]] eqn:He.
    + exists [(c, None)]. cbn [fst snd]. split.
      * rewrite steps_record, Hc. f_equal. apply steps_same_trace.
        by rewrite (effect_trace _ _ _ _ _ He).
      * apply (attempt_all [c] v).
    + exists [(c, Some k)]. cbn [fst snd]. split.
      * rewrite steps_record, Hc. done.
      * by apply (attempt_stop [c] [] c [] k m).
Qed.

Lemma runs_bind {A B} (m : M A) (k : A → M B) p q :
  runs m p → (∀ a, runs (k a) q) → runs (m ≫= k) (p ++ q).
Proof.
  intros Hm Hk w. destruct (Hm w) as (log & Hs & Ha).
  unfold mbind, M_bind, bind.
  destruct (m w) as [[a|e] w1]; cbn [fst snd] in *.
  - inversion Ha; subst. destruct (Hk a w1) as (log2 & Hs2 & Ha2).
    exists (passed p ++ log2). split.
    { by rewrite Hs2, Hs, app_assoc. }
    destruct (k a w1) as [[b|e] w2]; cbn [fst snd] in *; inversion Ha2; subst.
    + rewrite <- passed_app. apply attempt_all.
    + rewrite (app_assoc (passed p)), <- passed_app. eapply attempt_stop.
      by rewrite <- app_assoc.
  - exists log. split; [done|]. inversion Ha; subst.
    eapply attempt_stop. by rewrite <- app_assoc.
Qed.

Lemma runs_step {A B} (m : M A) (k : A → M B) c q :
  runs m [c] → (∀ a, runs (k a) q) → runs (m ≫= k) (c :: q).
Proof. apply (runs_bind m k [c] q). Qed.

Lemma runs_skip {A B} (m : M A) (k : A → M B) q :
  runs m [] → (∀ a, runs (k a) q) → runs (m ≫= k) q.
Proof. apply (runs_bind m k [] q). Qed.

Lemma runs_for_each {A} (xs : list A) (body : A → M unit) :
  (∀ x, runs (body x) []) → runs (for_each xs body) [].
Proof.
  intros Hb. induction xs as [|x xs IH]; cbn.
  - apply runs_ret.
  - apply runs_skip; [apply Hb|intros _; apply IH].
Qed.

Lemma runs_page_is_visible sel : runs (page_is_visible env sel) [IsVisible sel].
Proof.
  unfold page_is_visible. rewrite <- (app_nil_r [_]).
  apply runs_bind; [by apply runs_api|intros v; apply runs_ret].
Qed.

Lemma runs_page_content : runs (page_content env) [Content].
Proof.
  unfold page_content. rewrite <- (app_nil_r [_]).
  apply runs_bind; [by apply runs_api|intros v; apply runs_ret].
Qed.

Lemma runs_locator_inner_text sel : runs (locator_inner_text env sel) [InnerText sel].
Proof.
  unfold locator_inner_text. rewrite <- (app_nil_r [_]).
  apply runs_bind; [by apply runs_api|intros v; apply runs_ret].
Qed.

Ltac run_step :=
  first
    [ apply runs_step;
      [ first [ by apply runs_api | apply runs_time_sleep | apply runs_page_is_visible
              | apply runs_page_content | apply runs_locator_inner_text ]
      | intros ? ]
    | apply runs_skip;
      [ first [ apply runs_print | apply runs_page_on | apply runs_read_errors
              | apply runs_ret ]
      | intros ? ]
    | apply runs_print | apply runs_ret ].

Lemma runs_scenario s : runs (scenario env s) (plan s).
Proof.
  destruct s; cbn [scenario plan];
    unfold verify_asteroids, verify_horizon, verify_level_2, verify_load_body, run_body,
      page_goto, page_wait_for_selector, page_wait_for_timeout, page_click,
      page_evaluate, page_screenshot;
    repeat run_step.
  apply runs_skip; [|intros _].
  { destruct (contains _ _); [apply runs_print|apply runs_ret]. }
  apply runs_skip; [apply runs_read_errors|intros errs].
  destruct errs as [|e errs]; [apply runs_print|].
  apply runs_skip; [apply runs_print|intros _].
  apply runs_for_each. intros x. apply runs_print.
Qed.

End StepLogs.

(** ** The first failing step is the last step attempted *)

Lemma attempted_log {A} (m : M A) w log :
  steps (m w).2 = steps w ++ log → attempted m w = log.
Proof. unfold attempted. intros ->. by rewrite drop_app_length. Qed.

Lemma runs_stops {A} (m : M A) todo w i c k :
  runs m todo →
  first_failure (attempted m w) = Some (i, c, k) →
  length (attempted m w) = S i ∧
  (attempted m w).*1 = take (S i) todo ∧
  ∃ msg, (m w).1 = Raise (PwError k msg).
Proof.
  intros Hm. destruct (Hm w) as (log & Hs & Ha).
  rewrite (attempted_log _ _ _ Hs). unfold first_failure.
  inversion Ha as [a Hr Hl|done c' rest k' msg Hp Hr Hl].
  - rewrite first_failure_from_passed. done.
  - rewrite first_failure_from_stop. intros [= <- <- <-].
    rewrite length_app. unfold passed at 1. rewrite length_fmap.
    rewrite fmap_app, passed_calls. cbn [length fmap list_fmap].
    split; [lia|]. split; [|by exists msg].
    rewrite Hp, (cons_middle c' done rest), (app_assoc done [c'] rest).
    symmetry. apply take_app_length'. rewrite length_app. cbn. lia.
Qed.

(** The steps attempted are always an initial segment of the steps written. *)
Lemma runs_prefix {A} (m : M A) todo w :
  runs m todo → (attempted m w).*1 `prefix_of` todo.
Proof.
  intros Hm. destruct (Hm w) as (log & Hs & Ha).
  rewrite (attempted_log _ _ _ Hs).
  inversion Ha as [a Hr Hl|done c' rest k' msg Hp Hr Hl].
  - by rewrite passed_calls.
  - rewrite fmap_app, passed_calls, Hp. cbn.
    exists rest. by rewrite <- app_assoc.
Qed.

(** C3.  For every scenario, started in any state and against any
    environment: if the first failing step has index [i], then exactly
    [i + 1] steps were attempted, they are the first [i + 1] steps of the
    scenario in the order of the source, and the scenario raises the error
    of that step; no later step is executed. *)
Theorem first_failure_is_last_attempt env s w i c k :
  first_failure (attempted (scenario env s) w) = Some (i, c, k) →
  length (attempted (scenario env s) w) = S i ∧
  (attempted (scenario env s) w).*1 = take (S i) (plan s) ∧
  ∃ msg, (scenario env s w).1 = Raise (PwError k msg).
Proof. apply runs_stops, runs_scenario. Qed.

Lemma first_failure_is_last_attempt_witness :
  first_failure (attempted (scenario flaky Load) (boot ∅))
    = Some (1%nat, WaitForSelector "#glCanvas" (Some 10000), TimeoutError) ∧
  length (attempted (scenario flaky Load) (boot ∅)) = 2%nat ∧
  (attempted (scenario flaky Load) (boot ∅)).*1 = take 2 (plan Load) ∧
  ∃ msg, (scenario flaky Load (boot ∅)).1 = Raise (PwError TimeoutError msg).
Proof.
  split; [vm_compute; reflexivity|].
  apply (first_failure_is_last_attempt flaky Load (boot ∅) 1
           (WaitForSelector "#glCanvas" (Some 10000)) TimeoutError).
  vm_compute. reflexivity.
Defined.

(** ** Rules for whole runs *)

Section Wp.

Context (env : Env).

Lemma wp_value {A} (m : M A) w r w' Q : m w = (r, w') → Q r w' → wp m w Q.
Proof. unfold wp. by intros ->. Qed.

Lemma wp_bind {A B} (m : M A) (k : A → M B) w Q :
  wp m w (λ r w', match r with Ok a => wp (k a) w' Q | Raise e => Q (Raise e) w' end) →
  wp (m ≫= k) w Q.
Proof.
  unfold wp, mbind, M_bind, bind. intros H.
  destruct (m w) as [[a|e] w']; exact H.
Qed.

Lemma wp_try_except {A} (body : M A) handler w Q :
  wp body w (λ r w',
    match r with
    | Raise e => if is_Exception e then wp (handler e) w' Q else Q (Raise e) w'
    | Ok a => Q (Ok a) w'
    end) →
  wp (try_except body handler) w Q.
Proof.
  unfold wp, try_except. intros H.
  destruct (body w) as [[a|e] w']; cbn [fst snd] in H; [exact H|].
  destruct (is_Exception e); exact H.
Qed.

Lemma wp_try_finally {A} (body : M A) fin w Q :
  wp body w (λ r w',
    wp fin w' (λ rf w'', match rf with Ok _ => Q r w'' | Raise e => Q (Raise e) w'' end)) →
  wp (try_finally body fin) w Q.
Proof.
  unfold wp, try_finally. intros H.
  destruct (body w) as [r w']. cbn [fst snd] in H.
  destruct (fin w') as [[[]|e] w'']; exact H.
Qed.

Lemma wp_with {A} (body : M A) w Q :
  wp body (record SyncPlaywrightEnter None w)
     (λ r w', Q r (record SyncPlaywrightExit None (stop_driver w'))) →
  wp (with_sync_playwright body) w Q.
Proof.
  unfold wp, with_sync_playwright. intros H.
  destruct (body _) as [r w']. exact H.
Qed.

(** A call either meets a fault of the backend, or has the effect the page
    gives it. *)
Lemma wp_api c w Q :
  (∀ evs k m pg,
     env (history w) c = {| emitted := evs; fault := Some (k, m); page := pg |} →
     Q (Raise (PwError k m)) (record c (Some k) (deliver evs w))) →
  (∀ evs pg,
     env (history w) c = {| emitted := evs; fault := None; page := pg |} →
     match effect c pg (deliver evs w) with
     | inl (v, w2) => Q (Ok v) (record c None w2)
     | inr (k, m) => Q (Raise (PwError k m)) (record c (Some k) (deliver evs w))
     end) →
  wp (api env c) w Q.
Proof.
  intros Hf Hok. unfold wp, api.
  destruct (env (history w) c) as [evs [[k m]|] pg] eqn:He; cbn [emitted fault page].
  - apply (Hf _ _ _ _ eq_refl).
  - specialize (Hok _ _ eq_refl).
    destruct (effect c pg _) as [[v w2]|[k m]]; exact Hok.
Qed.

End Wp.

Ltac wp_unfold :=
  unfold launch, new_context, new_page, page_goto, page_wait_for_selector,
    page_wait_for_timeout, page_click, locator_click, keyboard_press, page_evaluate,
    page_screenshot, locator_inner_text, page_is_visible, page_content.

(** The loop that prints the collected errors. *)
Lemma for_each_print (f : string → string) xs w :
  for_each xs (λ e, print (f e)) w
  = (Ok tt, set_py (λ s, {| stdout := stdout s ++ (f <$> xs); errors := errors s |}) w).
Proof.
  revert w. induction xs as [|x xs IH]; intros w.
  - cbn. unfold ret, set_py. rewrite app_nil_r. by destruct w as [? ? []].
  - cbn [for_each]. unfold mbind, M_bind, bind, print at 1. rewrite IH.
    unfold set_py. cbn. by rewrite <- app_assoc.
Qed.

Ltac scrutinee x :=
  lazymatch x with
  | match ?y with _ => _ end => scrutinee y
  | _ => x
  end.

(** One step of symbolic execution of a script. *)
Ltac wp_step :=
  lazymatch goal with
  | |- match ?x with _ => _ end =>
      let y := scrutinee x in destruct y eqn:?; cbn
  | |- wp (with_sync_playwright _) _ _ => apply wp_with
  | |- wp (try_finally _ _) _ _ => apply wp_try_finally
  | |- wp (try_except _ _) _ _ => apply wp_try_except
  | |- wp (_ ≫= _) _ _ => apply wp_bind
  | |- wp (match ?x with _ => _ end) _ _ => destruct x eqn:?; cbn
  | |- wp (for_each _ _) _ _ => eapply wp_value; [apply for_each_print|]; cbn
  | |- wp (api _ _) _ _ =>
      let H := fresh "Henv" in
      apply wp_api; [intros ? ? ? ? H|intros ? ? H]; cbn in H; cbn;
      unfold click, evaluate; cbn
  | |- wp _ _ _ => eapply wp_value; [reflexivity|]; cbn
  end.

Ltac wp_run := wp_unfold; repeat wp_step.

(** ** Closing the browser *)

Ltac find_entry :=
  apply list_elem_of_In; cbn; repeat (first [left; exact eq_refl|right]).

Ltac trace_cases H :=
  repeat (apply elem_of_cons in H as [H|H]; [try discriminate H|]);
  try (apply elem_of_nil in H; destruct H).

(** The scripts that guard their steps close the browser exactly once on
    every way out, once the page is open. *)
Lemma verify_asteroid_main_closes env disk :
  let w' := (verify_asteroid_main env (boot disk)).2 in
  (NewPage, None) ∈ trace w' →
  lifecycle w' = Closed ∧ releases w' = 1%nat ∧ close_calls w' = 1%nat.
Proof.
  change (wp (verify_asteroid_main env) (boot disk)
            (λ _ w', (NewPage, None) ∈ trace w' →
                     lifecycle w' = Closed ∧ releases w' = 1%nat ∧
                     length (List.filter (λ e, is_close e.1) (trace w')) = 1%nat)).
  unfold verify_asteroid_main, verify_asteroids. wp_run.
  all: intros Hin; try done. all: trace_cases Hin.
Qed.

Lemma verify_level_2_main_closes env disk :
  let w' := (verify_level_2_main env (boot disk)).2 in
  (NewPage, None) ∈ trace w' →
  lifecycle w' = Closed ∧ releases w' = 1%nat ∧ close_calls w' = 1%nat.
Proof.
  change (wp (verify_level_2_main env) (boot disk)
            (λ _ w', (NewPage, None) ∈ trace w' →
                     lifecycle w' = Closed ∧ releases w' = 1%nat ∧
                     length (List.filter (λ e, is_close e.1) (trace w')) = 1%nat)).
  unfold verify_level_2_main, verify_level_2. wp_run.
  all: intros Hin; try done. all: trace_cases Hin.
Qed.

Lemma verify_horizon_main_closes env disk :
  let w' := (verify_horizon_main env (boot disk)).2 in
  (NewPage, None) ∈ trace w' →
  lifecycle w' = Closed ∧ releases w' = 1%nat ∧ close_calls w' = 1%nat.
Proof.
  change (wp (verify_horizon_main env) (boot disk)
            (λ _ w', (NewPage, None) ∈ trace w' →
                     lifecycle w' = Closed ∧ releases w' = 1%nat ∧
                     length (List.filter (λ e, is_close e.1) (trace w')) = 1%nat)).
  unfold verify_horizon_main, verify_horizon. wp_run.
  all: intros Hin; try done. all: trace_cases Hin.
Qed.

Lemma verify_load_closes env disk :
  let w' := (verify_load env (boot disk)).2 in
  (NewPage, None) ∈ trace w' →
  lifecycle w' = Closed ∧ releases w' = 1%nat ∧ close_calls w' = 1%nat.
Proof.
  change (wp (verify_load env) (boot disk)
            (λ _ w', (NewPage, None) ∈ trace w' →
                     lifecycle w' = Closed ∧ releases w' = 1%nat ∧
                     length (List.filter (λ e, is_close e.1) (trace w')) = 1%nat)).
  unfold verify_load, verify_load_body. wp_run.
  all: intros Hin; try done. all: trace_cases Hin.
Qed.

Lemma run_closes env disk :
  let w' := (run env (boot disk)).2 in
  (NewPage, None) ∈ trace w' →
  lifecycle w' = Closed ∧ releases w' = 1%nat ∧ close_calls w' = 1%nat.
Proof.
  change (wp (run env) (boot disk)
            (λ _ w', (NewPage, None) ∈ trace w' →
                     lifecycle w' = Closed ∧ releases w' = 1%nat ∧
                     length (List.filter (λ e, is_close e.1) (trace w')) = 1%nat)).
  unfold run, run_body. wp_run.
  all: intros Hin; try done. all: trace_cases Hin.
Qed.

(** [verify_reentry] calls [browser.close()] only on its last line: once
    when everything before it went through, and not at all otherwise. *)
Lemma verify_reentry_close_calls env disk :
  let r := verify_reentry env (boot disk) in
  (r.1 = Ok tt → close_calls r.2 = 1%nat) ∧ (r.1 ≠ Ok tt → close_calls r.2 = 0%nat).
Proof.
  change (wp (verify_reentry env) (boot disk) (λ r w',
    (r = Ok tt → length (List.filter (λ e, is_close e.1) (trace w')) = 1%nat) ∧
    (r ≠ Ok tt → length (List.filter (λ e, is_close e.1) (trace w')) = 0%nat))).
  unfold verify_reentry. wp_run. all: done.
Qed.

Ltac release_case :=
  split;
  [ intros h Hin; first [solve [trace_cases Hin]|done]
  | intros h k' Hin; first [solve [trace_cases Hin]|done] ].

Lemma verify_asteroid_main_releases env disk :
  releases_browser (verify_asteroid_main env) disk.
Proof.
  change (wp (verify_asteroid_main env) (boot disk) (λ _ w',
    (∀ h, (Launch h, None) ∈ trace w' → lifecycle w' = Closed ∧ releases w' = 1%nat) ∧
    (∀ h k, (Launch h, Some k) ∈ trace w' →
            lifecycle w' = Created ∧ releases w' = 0%nat))).
  unfold verify_asteroid_main, verify_asteroids. wp_run. all: release_case.
Qed.

Lemma verify_level_2_main_releases env disk :
  releases_browser (verify_level_2_main env) disk.
Proof.
  change (wp (verify_level_2_main env) (boot disk) (λ _ w',
    (∀ h, (Launch h, None) ∈ trace w' → lifecycle w' = Closed ∧ releases w' = 1%nat) ∧
    (∀ h k, (Launch h, Some k) ∈ trace w' →
            lifecycle w' = Created ∧ releases w' = 0%nat))).
  unfold verify_level_2_main, verify_level_2. wp_run. all: release_case.
Qed.

Lemma verify_horizon_main_releases env disk :
  releases_browser (verify_horizon_main env) disk.
Proof.
  change (wp (verify_horizon_main env) (boot disk) (λ _ w',
    (∀ h, (Launch h, None) ∈ trace w' → lifecycle w' = Closed ∧ releases w' = 1%nat) ∧
    (∀ h k, (Launch h, Some k) ∈ trace w' →
            lifecycle w' = Created ∧ releases w' = 0%nat))).
  unfold verify_horizon_main, verify_horizon. wp_run. all: release_case.
Qed.

Lemma verify_load_releases env disk :
  releases_browser (verify_load env) disk.
Proof.
  change (wp (verify_load env) (boot disk) (λ _ w',
    (∀ h, (Launch h, None) ∈ trace w' → lifecycle w' = Closed ∧ releases w' = 1%nat) ∧
    (∀ h k, (Launch h, Some k) ∈ trace w' →
            lifecycle w' = Created ∧ releases w' = 0%nat))).
  unfold verify_load, verify_load_body. wp_run. all: release_case.
Qed.

Lemma verify_reentry_releases env disk :
  releases_browser (verify_reentry env) disk.
Proof.
  change (wp (verify_reentry env) (boot disk) (λ _ w',
    (∀ h, (Launch h, None) ∈ trace w' → lifecycle w' = Closed ∧ releases w' = 1%nat) ∧
    (∀ h k, (Launch h, Some k) ∈ trace w' →
            lifecycle w' = Created ∧ releases w' = 0%nat))).
  unfold verify_reentry. wp_run. all: release_case.
Qed.

Lemma run_releases env disk : releases_browser (run env) disk.
Proof.
  change (wp (run env) (boot disk) (λ _ w',
    (∀ h, (Launch h, None) ∈ trace w' → lifecycle w' = Closed ∧ releases w' = 1%nat) ∧
    (∀ h k, (Launch h, Some k) ∈ trace w' →
            lifecycle w' = Created ∧ releases w' = 0%nat))).
  unfold run, run_body. wp_run. all: release_case.
Qed.

(** C1.  Every script runs inside [with sync_playwright()].  Whichever way
    a run ends, by normal completion, by a failed step or by any other
    exception of the library, the browser it launched has been released
    exactly once when the script is over: by [browser.close()] where that
    call is reached, and otherwise by the exit of the [with] block.  When
    the launch itself failed there is no browser and nothing is released. *)
Theorem session_released_on_every_exit env disk :
  releases_browser (verify_asteroid_main env) disk ∧
  releases_browser (verify_level_2_main env) disk ∧
  releases_browser (verify_horizon_main env) disk ∧
  releases_browser (verify_load env) disk ∧
  releases_browser (verify_reentry env) disk ∧
  releases_browser (run env) disk.
Proof.
  split; [apply verify_asteroid_main_releases|].
  split; [apply verify_level_2_main_releases|].
  split; [apply verify_horizon_main_releases|].
  split; [apply verify_load_releases|].
  split; [apply verify_reentry_releases|apply run_releases].
Qed.

Lemma session_released_on_every_exit_witness :
  (Launch (Some true), None) ∈ trace (verify_reentry unreachable (boot ∅)).2 ∧
  (verify_reentry unreachable (boot ∅)).1
    = Raise (PwError NavigationError "net::ERR_CONNECTION_REFUSED") ∧
  close_calls (verify_reentry unreachable (boot ∅)).2 = 0%nat ∧
  lifecycle (verify_reentry unreachable (boot ∅)).2 = Closed ∧
  releases (verify_reentry unreachable (boot ∅)).2 = 1%nat.
Proof.
  assert (Hin : (Launch (Some true), None)
                ∈ trace (verify_reentry unreachable (boot ∅)).2).
  { vm_compute. find_entry. }
  split; [exact Hin|]. split; [vm_compute; reflexivity|].
  split; [vm_compute; reflexivity|].
  exact (proj1 (proj1 (proj2 (proj2 (proj2 (proj2
           (session_released_on_every_exit unreachable ∅))))))
           (Some true) Hin).
Defined.

(** ** What the listeners do with the events *)

Lemma dispatch_no_listener s evs : foldl (dispatch []) s evs = s.
Proof. induction evs as [|ev evs IH]; [done|exact IH]. Qed.

Lemma dispatch_load s evs :
  foldl (dispatch [OnConsole load_console_handler; OnPageError load_pageerror_handler]) s evs
  = {| stdout := stdout s; errors := errors s ++ omap kept evs |}.
Proof.
  revert s.
  induction evs as [|ev evs IH]; intros [out errs]; cbn [foldl omap list_omap].
  - by rewrite app_nil_r.
  - rewrite IH. destruct ev as [msg|exc]; cbn.
    + unfold load_console_handler. destruct (bool_decide _); cbn; [|done].
      by rewrite <- app_assoc.
    + by rewrite <- app_assoc.
Qed.

Lemma stdout_dispatch_load s evs :
  stdout (foldl (dispatch [OnConsole load_console_handler;
                           OnPageError load_pageerror_handler]) s evs) = stdout s.
Proof. by rewrite dispatch_load. Qed.

Lemma errors_dispatch_load s evs :
  errors (foldl (dispatch [OnConsole load_console_handler;
                           OnPageError load_pageerror_handler]) s evs)
  = errors s ++ omap kept evs.
Proof. by rewrite dispatch_load. Qed.

(** The console listener of the horizon script only prints. *)
Lemma errors_dispatch_horizon s evs :
  errors (foldl (dispatch [OnConsole horizon_console_handler]) s evs) = errors s.
Proof.
  revert s. induction evs as [|ev evs IH]; intros s; cbn [foldl]; [done|].
  rewrite IH. by destruct ev.
Qed.

Create Rewrite HintDb listeners.
#[local] Hint Rewrite dispatch_no_listener stdout_dispatch_load errors_dispatch_load
  errors_dispatch_horizon : listeners.

(** ** How the scripts end when a step fails *)

Ltac use_env :=
  repeat match goal with
  | H : ?e ?h ?c = _ |- context [?e ?h ?c] => rewrite H
  end.

(** Whether a call fails, and with what, does not depend on the state. *)
Lemma effect_fails_alike c pg w1 w2 :
  match effect c pg w1, effect c pg w2 with
  | inl _, inl _ => True
  | inr e1, inr e2 => e1 = e2
  | _, _ => False
  end.
Proof.
  destruct c; cbn; unfold click, evaluate; repeat case_match; simplify_eq; done.
Qed.

(** [raised] is what [api] raises. *)
Lemma api_raises env c w k m :
  (api env c w).1 = Raise (PwError k m) ↔ raised env (history w) c = Some (k, m).
Proof.
  unfold api, raised.
  destruct (fault (env (history w) c)) as [[k' m']|]; cbn [fst].
  - split; intros [= -> ->]; done.
  - pose proof (effect_fails_alike c (page (env (history w) c))
                  (deliver (emitted (env (history w) c)) w) (boot ∅)) as He.
    destruct (effect c _ (deliver _ w)) as [[v w2]|[k1 m1]],
             (effect c _ (boot ∅)) as [[v' w2']|[k2 m2]]; cbn [fst]; try done.
    injection He as -> ->. split; intros [= -> ->]; done.
Qed.

(** The message printed is the one the failed call raised. *)
Ltac raised_case :=
  eexists; split; [|first [reflexivity|apply last_snoc]];
  unfold raised; cbn; use_env; cbn; unfold click, evaluate, js_eval;
  repeat match goal with
  | H : query _ _ = _ |- _ => rewrite H
  | H : List.find _ _ = _ |- _ => rewrite H
  | H : actionable _ _ = _ |- _ => rewrite H
  end; reflexivity.

Lemma verify_load_failure env disk i c k :
  let l := verify_load env (boot disk) in
  first_failure (steps l.2) = Some (i, c, k) →
  l.1 = Raise (SystemExit 1) ∧ lifecycle l.2 = Closed ∧ releases l.2 = 1%nat ∧
  ((i ≤ 3)%nat → fs l.2 = disk) ∧
  ∃ msg, raised env (prelude (Some true) ++ take i (plan Load)) c = Some (k, msg) ∧
         stdout (py l.2) = load_progress i ++ ["Verification failed: " +:+ msg].
Proof.
  change (wp (verify_load env) (boot disk) (λ r w',
    first_failure (steps w') = Some (i, c, k) →
    r = Raise (SystemExit 1) ∧ lifecycle w' = Closed ∧ releases w' = 1%nat ∧
    ((i ≤ 3)%nat → fs w' = disk) ∧
    ∃ msg, raised env (prelude (Some true) ++ take i (plan Load)) c = Some (k, msg) ∧
           stdout (py w') = load_progress i ++ ["Verification failed: " +:+ msg])).
  unfold verify_load, verify_load_body. wp_run.
  all: intros Hff; try discriminate Hff.
  all: injection Hff as <- <- <-.
  all: autorewrite with listeners; cbn [stdout errors].
  all: split; [reflexivity|]; split; [reflexivity|]; split; [reflexivity|].
  all: split; [intros ?; first [reflexivity|lia]|].
  all: raised_case.
Qed.

Lemma run_failure env disk i c k :
  let r := run env (boot disk) in
  first_failure (steps r.2) = Some (i, c, k) →
  r.1 = Ok tt ∧ lifecycle r.2 = Closed ∧ releases r.2 = 1%nat ∧ fs r.2 = disk ∧
  ∃ msg, raised env (prelude (Some true) ++ take i (plan Waterfall)) c = Some (k, msg) ∧
         stdout (py r.2) = ["Error: " +:+ msg].
Proof.
  change (wp (run env) (boot disk) (λ r w',
    first_failure (steps w') = Some (i, c, k) →
    r = Ok tt ∧ lifecycle w' = Closed ∧ releases w' = 1%nat ∧ fs w' = disk ∧
    ∃ msg, raised env (prelude (Some true) ++ take i (plan Waterfall)) c = Some (k, msg) ∧
           stdout (py w') = ["Error: " +:+ msg])).
  unfold run, run_body. wp_run.
  all: intros Hff; try discriminate Hff.
  all: injection Hff as <- <- <-.
  all: autorewrite with listeners; cbn [stdout errors].
  all: split; [reflexivity|]; split; [reflexivity|]; split; [reflexivity|].
  all: split; [reflexivity|].
  all: raised_case.
Qed.

Lemma verify_horizon_main_failure env disk i c k :
  let h := verify_horizon_main env (boot disk) in
  first_failure (steps h.2) = Some (i, c, k) →
  h.1 = Ok tt ∧ lifecycle h.2 = Closed ∧ releases h.2 = 1%nat ∧
  ∃ msg, raised env (prelude None ++ take i (plan Horizon)) c = Some (k, msg) ∧
         last (stdout (py h.2)) = Some ("Error: " +:+ msg).
Proof.
  change (wp (verify_horizon_main env) (boot disk) (λ r w',
    first_failure (steps w') = Some (i, c, k) →
    r = Ok tt ∧ lifecycle w' = Closed ∧ releases w' = 1%nat ∧
    ∃ msg, raised env (prelude None ++ take i (plan Horizon)) c = Some (k, msg) ∧
           last (stdout (py w')) = Some ("Error: " +:+ msg))).
  unfold verify_horizon_main, verify_horizon. wp_run.
  all: intros Hff; try discriminate Hff.
  all: injection Hff as <- <- <-.
  all: split; [reflexivity|]; split; [reflexivity|]; split; [reflexivity|].
  all: raised_case.
Qed.

Ltac launch_case :=
  split; [reflexivity|];
  first
    [ eexists (Launch _), _, _; split; [reflexivity|]; split; [reflexivity|];
      solve [find_entry]
    | exists NewPage; do 2 eexists; split; [reflexivity|]; split; [reflexivity|];
      solve [find_entry] ].

(** What leaves the two scripts as an exception. *)
Lemma verify_horizon_main_raises env disk e :
  let h := verify_horizon_main env (boot disk) in
  h.1 = Raise e → launch_failed h.2 e.
Proof.
  change (wp (verify_horizon_main env) (boot disk) (λ r w',
    r = Raise e →
    steps w' = [] ∧
    ∃ c k msg, e = PwError k msg ∧ is_step c = false ∧ (c, Some k) ∈ trace w')).
  unfold verify_horizon_main, verify_horizon. wp_run.
  all: intros Hr; try discriminate Hr.
  all: injection Hr as <-; launch_case.
Qed.

Lemma verify_load_raises env disk e :
  let l := verify_load env (boot disk) in
  l.1 = Raise e → e = SystemExit 1 ∨ launch_failed l.2 e.
Proof.
  change (wp (verify_load env) (boot disk) (λ r w',
    r = Raise e →
    e = SystemExit 1 ∨
    (steps w' = [] ∧
     ∃ c k msg, e = PwError k msg ∧ is_step c = false ∧ (c, Some k) ∈ trace w'))).
  unfold verify_load, verify_load_body. wp_run.
  all: intros Hr; try discriminate Hr.
  all: injection Hr as <-; first [by left|right; launch_case].
Qed.

(** ** C2: where a failed step is caught, and what becomes of it *)

(** The claim as worded fails on [verify_load]: the canvas never appears,
    the wait times out, and the script ends the process with
    [sys.exit(1)]. *)
Lemma verify_load_exits_on_step_failure :
  ¬ step_failure_contained (verify_load flaky) (boot ∅).
Proof.
  intros H.
  specialize (H 1%nat (WaitForSelector "#glCanvas" (Some 10000)) TimeoutError).
  vm_compute in H. discriminate (H eq_refl).
Qed.

(** C2, amended.  A failed step is caught by the [except Exception] clause
    of the script and reported on standard output, and the browser is
    closed.  [verify_horizon] then ends normally; [verify_load] ends the
    process itself with [sys.exit(1)].  Nothing else leaves the two scripts
    as an exception but a failure to launch the browser or to open the
    page. *)
Theorem step_failure_reported env disk :
  let l := verify_load env (boot disk) in
  let h := verify_horizon_main env (boot disk) in
  (∀ i c k, first_failure (steps l.2) = Some (i, c, k) →
     l.1 = Raise (SystemExit 1) ∧ lifecycle l.2 = Closed ∧
     ∃ msg, last (stdout (py l.2)) = Some ("Verification failed: " +:+ msg)) ∧
  (∀ i c k, first_failure (steps h.2) = Some (i, c, k) →
     h.1 = Ok tt ∧ lifecycle h.2 = Closed ∧
     ∃ msg, last (stdout (py h.2)) = Some ("Error: " +:+ msg)) ∧
  (∀ e, l.1 = Raise e → e = SystemExit 1 ∨ launch_failed l.2 e) ∧
  (∀ e, h.1 = Raise e → launch_failed h.2 e).
Proof.
  cbv zeta. split; [|split; [|split]].
  - intros i c k Hff.
    destruct (verify_load_failure env disk i c k Hff)
      as (Hr & Hc & _ & _ & msg & _ & Hout).
    split; [done|]. split; [done|]. exists msg. rewrite Hout. apply last_snoc.
  - intros i c k Hff.
    destruct (verify_horizon_main_failure env disk i c k Hff)
      as (Hr & Hc & _ & msg & _ & Hout).
    split; [done|]. split; [done|]. by exists msg.
  - apply verify_load_raises.
  - apply verify_horizon_main_raises.
Qed.

Lemma step_failure_reported_witness :
  first_failure (steps (verify_load flaky (boot ∅)).2)
    = Some (1%nat, WaitForSelector "#glCanvas" (Some 10000), TimeoutError) ∧
  (verify_load flaky (boot ∅)).1 = Raise (SystemExit 1) ∧
  first_failure (steps (verify_horizon_main flaky (boot ∅)).2)
    = Some (1%nat, WaitForSelector "#glCanvas" None, TimeoutError) ∧
  (verify_horizon_main flaky (boot ∅)).1 = Ok tt ∧
  (verify_load unreachable (boot ∅)).1 = Raise (SystemExit 1).
Proof.
  pose proof (step_failure_reported flaky ∅) as H. cbv zeta in H.
  destruct H as (Hl & Hh & _ & _).
  split; [vm_compute; reflexivity|].
  split; [apply (Hl 1%nat (WaitForSelector "#glCanvas" (Some 10000)) TimeoutError);
          vm_compute; reflexivity|].
  split; [vm_compute; reflexivity|].
  split; [apply (Hh 1%nat (WaitForSelector "#glCanvas" None) TimeoutError);
          vm_compute; reflexivity|].
  pose proof (step_failure_reported unreachable ∅) as H. cbv zeta in H.
  destruct H as (Hl' & _).
  apply (Hl' 0%nat (Goto "http://localhost:4173") NavigationError).
  vm_compute. reflexivity.
Defined.

(** ** C6: what is left of a run after a failed step *)

(** The claim as worded fails on [verify_load]: the wait for the canvas
    times out after the page has logged an error and thrown; the two
    collected messages are never printed and the screenshot is never
    attempted. *)
Lemma verify_load_drops_evidence :
  ¬ abort_and_report (verify_load flaky) "verification/screenshot.png" (boot ∅).
Proof.
  intros H.
  destruct (H 1%nat (WaitForSelector "#glCanvas" (Some 10000)) TimeoutError) as [_ Hshot].
  { vm_compute. reflexivity. }
  vm_compute in Hshot. apply list_elem_of_In in Hshot. cbn in Hshot.
  repeat (destruct Hshot as [Hshot|Hshot]; [discriminate Hshot|]). exact Hshot.
Qed.

(** C6, amended.  When step [i] fails, [verify_load] has printed its
    progress lines up to that step, prints ["Verification failed: "] with
    the message of the exception that step raised as its last line, closes
    the browser and exits with status 1; the collected console errors are
    not printed, and no image is written unless the failure comes after the
    screenshot step.  [run] of the waterfall script prints ["Error: "] with
    the message of the exception that step raised as its only line, writes
    no image, closes the browser and returns.  Neither prints the index of
    the failed step. *)
Theorem step_failure_leaves_message_only env disk i c k :
  (first_failure (steps (verify_load env (boot disk)).2) = Some (i, c, k) →
     (verify_load env (boot disk)).1 = Raise (SystemExit 1) ∧
     lifecycle (verify_load env (boot disk)).2 = Closed ∧
     ((i ≤ 3)%nat → fs (verify_load env (boot disk)).2 = disk) ∧
     ∃ msg, raised env (prelude (Some true) ++ take i (plan Load)) c = Some (k, msg) ∧
            stdout (py (verify_load env (boot disk)).2)
            = load_progress i ++ ["Verification failed: " +:+ msg]) ∧
  (first_failure (steps (run env (boot disk)).2) = Some (i, c, k) →
     (run env (boot disk)).1 = Ok tt ∧
     lifecycle (run env (boot disk)).2 = Closed ∧
     fs (run env (boot disk)).2 = disk ∧
     ∃ msg, raised env (prelude (Some true) ++ take i (plan Waterfall)) c = Some (k, msg) ∧
            stdout (py (run env (boot disk)).2) = ["Error: " +:+ msg]).
Proof.
  split; intros Hff.
  - destruct (verify_load_failure env disk i c k Hff) as (Hr & Hc & _ & Hfs & Hout).
    done.
  - destruct (run_failure env disk i c k Hff) as (Hr & Hc & _ & Hfs & Hout).
    done.
Qed.

Lemma step_failure_leaves_message_only_witness :
  first_failure (steps (verify_load flaky (boot ∅)).2)
    = Some (1%nat, WaitForSelector "#glCanvas" (Some 10000), TimeoutError) ∧
  first_failure (steps (run flaky (boot ∅)).2)
    = Some (1%nat, WaitForSelector "#glCanvas" None, TimeoutError) ∧
  errors (py (verify_load flaky (boot ∅)).2)
    = ["shader failed"; "ReferenceError: levelManager is not defined"] ∧
  (∃ msg, raised flaky (prelude (Some true) ++ take 1 (plan Load))
                 (WaitForSelector "#glCanvas" (Some 10000)) = Some (TimeoutError, msg) ∧
          stdout (py (verify_load flaky (boot ∅)).2)
          = load_progress 1 ++ ["Verification failed: " +:+ msg]) ∧
  fs (run flaky (boot ∅)).2 = ∅.
Proof.
  assert (Hl : first_failure (steps (verify_load flaky (boot ∅)).2)
    = Some (1%nat, WaitForSelector "#glCanvas" (Some 10000), TimeoutError))
    by (vm_compute; reflexivity).
  assert (Hr : first_failure (steps (run flaky (boot ∅)).2)
    = Some (1%nat, WaitForSelector "#glCanvas" None, TimeoutError))
    by (vm_compute; reflexivity).
  split; [exact Hl|]. split; [exact Hr|]. split; [vm_compute; reflexivity|]. split.
  - exact (proj2 (proj2 (proj2 (proj1 (step_failure_leaves_message_only flaky ∅ _ _ _) Hl)))).
  - exact (proj1 (proj2 (proj2 (proj2 (step_failure_leaves_message_only flaky ∅ _ _ _) Hr)))).
Defined.

(** ** Page events do not steer a script *)

Lemma sim_refl w : sim w w.
Proof. by repeat split. Qed.

Lemma sim_sym w1 w2 : sim w1 w2 → sim w2 w1.
Proof. intros (?&?&?&?&?). by repeat split. Qed.

Lemma sim_trans w1 w2 w3 : sim w1 w2 → sim w2 w3 → sim w1 w3.
Proof.
  intros (?&?&?&?&?) (?&?&?&?&?). repeat split; etrans; eassumption.
Qed.

Lemma sim_deliver evs w : sim (deliver evs w) w.
Proof. by repeat split. Qed.

Lemma sim_record c o w1 w2 : sim w1 w2 → sim (record c o w1) (record c o w2).
Proof. intros (Ht&?&?&?&?). repeat split; try done. cbn. by rewrite Ht. Qed.

Lemma sim_set_py f w : sim (set_py f w) w.
Proof. by repeat split. Qed.

Lemma sim_set_listeners f w : sim (set_listeners f w) w.
Proof. by repeat split. Qed.

Lemma sim_close w1 w2 : sim w1 w2 → sim (close w1) (close w2).
Proof.
  intros (?&?&?&Hl&Hr). unfold close. rewrite Hl.
  destruct (lifecycle w2) eqn:Hl2; repeat split; cbn; congruence.
Qed.

Lemma sim_stop_driver w1 w2 : sim w1 w2 → sim (stop_driver w1) (stop_driver w2).
Proof.
  intros Hs. pose proof Hs as (_&_&_&Hl&_). unfold stop_driver. rewrite Hl.
  destruct (lifecycle w2); first [exact Hs|by apply sim_close].
Qed.

(** What a call does to the page depends on the page only. *)
Lemma sim_effect c pg w1 w2 :
  sim w1 w2 →
  match effect c pg w1, effect c pg w2 with
  | inl (v1, w1'), inl (v2, w2') => v1 = v2 ∧ sim w1' w2'
  | inr e1, inr e2 => e1 = e2
  | _, _ => False
  end.
Proof.
  intros Hs. pose proof Hs as (Ht&Hf&Hc&Hl&Hr).
  destruct c; cbn; unfold click, evaluate, dispatch_click;
    repeat case_match; simplify_eq; try done;
    split; try done; repeat split; cbn; congruence.
Qed.

Lemma silent_ret {A} (a : A) : silent (mret a : M A).
Proof. intros w. split; [by exists a|apply sim_refl]. Qed.

Lemma silent_print line : silent (print line).
Proof. intros w. split; [by exists tt|apply sim_set_py]. Qed.

Lemma silent_page_on l : silent (page_on l).
Proof. intros w. split; [by exists tt|apply sim_set_listeners]. Qed.

Lemma silent_new_errors_list : silent new_errors_list.
Proof. intros w. split; [by exists tt|apply sim_set_py]. Qed.

Lemma silent_read_errors : silent read_errors.
Proof. intros w. split; [by eexists|apply sim_refl]. Qed.

Lemma silent_bind {A B} (m : M A) (k : A → M B) :
  silent m → (∀ a, silent (k a)) → silent (m ≫= k).
Proof.
  intros Hm Hk w. destruct (Hm w) as [[a Ha] Hs].
  unfold mbind, M_bind, bind. destruct (m w) as [r w1]. cbn [fst snd] in *.
  subst r. destruct (Hk a w1) as [Hb Hs']. split; [done|].
  by eapply sim_trans.
Qed.

Lemma silent_for_each {A} (xs : list A) (body : A → M unit) :
  (∀ x, silent (body x)) → silent (for_each xs body).
Proof.
  intros Hb. induction xs as [|x xs IH]; cbn [for_each].
  - apply silent_ret.
  - apply silent_bind; [apply Hb|intros _; apply IH].
Qed.

Lemma alike_silent {A B} (m1 : M A) (m2 : M B) : silent m1 → silent m2 → alike m1 m2.
Proof.
  intros H1 H2 w1 w2 Hs.
  destruct (H1 w1) as [[a1 Ha1] Hs1], (H2 w2) as [[a2 Ha2] Hs2].
  rewrite Ha1, Ha2. split; [done|].
  eapply sim_trans; [exact Hs1|]. eapply sim_trans; [exact Hs|]. by apply sim_sym.
Qed.

Lemma alike_bind {A1 A2 B1 B2} (m1 : M A1) (m2 : M A2) (k1 : A1 → M B1) (k2 : A2 → M B2) :
  alike m1 m2 → (∀ a1 a2, alike (k1 a1) (k2 a2)) → alike (m1 ≫= k1) (m2 ≫= k2).
Proof.
  intros Hm Hk w1 w2 Hs. destruct (Hm w1 w2 Hs) as [Ho Hs'].
  unfold mbind, M_bind, bind.
  destruct (m1 w1) as [[a1|e1] w1'], (m2 w2) as [[a2|e2] w2'];
    cbn [fst snd] in *; try done.
  by apply Hk.
Qed.

Lemma alike_raise {A B} e : alike (raise e : M A) (raise e : M B).
Proof. intros w1 w2 Hs. by split. Qed.

Lemma alike_try_except {A B} (b1 : M A) (b2 : M B) h1 h2 :
  alike b1 b2 → (∀ e, alike (h1 e) (h2 e)) →
  alike (try_except b1 h1) (try_except b2 h2).
Proof.
  intros Hb Hh w1 w2 Hs. destruct (Hb w1 w2 Hs) as [Ho Hs'].
  unfold try_except.
  destruct (b1 w1) as [[a1|e1] w1'], (b2 w2) as [[a2|e2] w2'];
    cbn [fst snd] in *; try done.
  cbn in Ho. subst e2. destruct (is_Exception e1); [by apply Hh|done].
Qed.

Lemma alike_try_finally {A B} (b1 : M A) (b2 : M B) f1 f2 :
  alike b1 b2 → alike f1 f2 → alike (try_finally b1 f1) (try_finally b2 f2).
Proof.
  intros Hb Hf w1 w2 Hs. destruct (Hb w1 w2 Hs) as [Ho Hs'].
  unfold try_finally.
  destruct (b1 w1) as [r1 w1'], (b2 w2) as [r2 w2']. cbn [fst snd] in *.
  destruct (Hf w1' w2' Hs') as [Hof Hsf].
  destruct (f1 w1') as [[[]|e1] w1''], (f2 w2') as [[[]|e2] w2''];
    cbn [fst snd] in *; done.
Qed.

Lemma alike_with {A B} (b1 : M A) (b2 : M B) :
  alike b1 b2 → alike (with_sync_playwright b1) (with_sync_playwright b2).
Proof.
  intros Hb w1 w2 Hs. unfold with_sync_playwright.
  destruct (Hb (record SyncPlaywrightEnter None w1) (record SyncPlaywrightEnter None w2))
    as [Ho Hs']; [by apply sim_record|].
  destruct (b1 _) as [r1 w1'], (b2 _) as [r2 w2']. cbn [fst snd] in *.
  split; [done|by apply sim_record, sim_stop_driver].
Qed.

Lemma alike_time_sleep s : alike (time_sleep s) (time_sleep s).
Proof. intros w1 w2 Hs. split; [done|by apply sim_record]. Qed.

Lemma alike_browser_close : alike browser_close browser_close.
Proof.
  intros w1 w2 Hs. split; [done|]. by apply sim_record, sim_close.
Qed.

(** The heart of it: a call goes the same way whether or not the page emits
    events while it is in progress. *)
Lemma alike_api env c : alike (api env c) (api (mute env) c).
Proof.
  intros w1 w2 Hs. unfold api, mute. cbn [emitted fault page].
  assert (history w1 = history w2) as <- by (unfold history; by destruct Hs as [-> _]).
  destruct (fault (env (history w1) c)) as [[k m]|].
  - split; [done|]. apply sim_record.
    eapply sim_trans; [apply sim_deliver|]. eapply sim_trans; [exact Hs|].
    apply sim_sym, sim_deliver.
  - assert (sim (deliver (emitted (env (history w1) c)) w1) (deliver [] w2)) as Hd.
    { eapply sim_trans; [apply sim_deliver|]. eapply sim_trans; [exact Hs|].
      apply sim_sym, sim_deliver. }
    pose proof (sim_effect c (page (env (history w1) c)) _ _ Hd) as He.
    destruct (effect c _ (deliver (emitted _) w1)) as [[v1 w1']|[k1 m1]],
             (effect c _ (deliver [] w2)) as [[v2 w2']|[k2 m2]]; try done.
    + destruct He as [_ He]. split; [done|by apply sim_record].
    + injection He as -> ->. split; [done|by apply sim_record].
Qed.

Lemma silent_webgpu_note content :
  silent (if contains "WebGPU not supported" content
          then print "WebGPU not supported warning found (Expected in this env)."
          else mret tt).
Proof. destruct (contains _ _); [apply silent_print|apply silent_ret]. Qed.

Lemma silent_errors_report (errs : list string) :
  silent (match errs with
          | _ :: _ => print "Console Errors found:" ≫= λ _,
                      for_each errs (λ e, print ("- " +:+ e))
          | [] => print "No console errors."
          end).
Proof.
  destruct errs as [|e errs]; [apply silent_print|].
  apply silent_bind; [apply silent_print|]. intros _.
  apply silent_for_each. intros x. apply silent_print.
Qed.

Ltac alike_step :=
  lazymatch goal with
  | |- ∀ _, _ => intros ?
  | |- alike (with_sync_playwright _) (with_sync_playwright _) => apply alike_with
  | |- alike (try_finally _ _) (try_finally _ _) => apply alike_try_finally
  | |- alike (try_except _ _) (try_except _ _) => apply alike_try_except
  | |- alike (_ ≫= _) (_ ≫= _) => apply alike_bind
  | |- alike (api _ _) (api _ _) => apply alike_api
  | |- alike browser_close browser_close => apply alike_browser_close
  | |- alike (time_sleep _) (time_sleep _) => apply alike_time_sleep
  | |- alike (raise _) (raise _) => apply alike_raise
  | |- alike (print _) (print _) => apply alike_silent; apply silent_print
  | |- alike (page_on _) (page_on _) => apply alike_silent; apply silent_page_on
  | |- alike new_errors_list new_errors_list =>
      apply alike_silent; apply silent_new_errors_list
  | |- alike read_errors read_errors => apply alike_silent; apply silent_read_errors
  | |- alike (mret _) (mret _) => apply alike_silent; apply silent_ret
  | |- alike (match _ with _ => _ end) (match _ with _ => _ end) =>
      apply alike_silent; first [apply silent_webgpu_note|apply silent_errors_report]
  end.

(** Whatever the page emits, [verify_load] makes the same calls and ends the
    same way. *)
Lemma verify_load_alike env : alike (verify_load env) (verify_load (mute env)).
Proof.
  unfold verify_load, verify_load_body, sys_exit. wp_unfold.
  repeat alike_step.
Qed.

(** ** What ends up in [errors] *)

Lemma verify_load_errors env disk :
  let w' := (verify_load env (boot disk)).2 in
  errors (py w') = omap kept (heard env [] (history w')).
Proof.
  change (wp (verify_load env) (boot disk) (λ _ w',
    errors (py w') = omap kept (heard env [] (trace w').*1))).
  unfold verify_load, verify_load_body. wp_run.
  all: use_env; cbn [emitted]; autorewrite with listeners; cbn [errors stdout].
  all: rewrite ?omap_app, ?app_nil_r, <- ?app_assoc; cbn [omap list_omap app].
  all: reflexivity.
Qed.

(** ** C5: the window of collected diagnostics *)

(** The claim as worded fails on [verify_load]: the warning the page logs
    while it loads is emitted between the registration of the listeners and
    the end of the run, and is not among the collected messages. *)
Lemma verify_load_drops_warnings :
  ¬ diagnostics_complete flaky (verify_load flaky (boot ∅)).2.
Proof.
  intros H.
  specialize (H (EvConsole {| msg_type := "warning"; msg_text := "slow frame" |})).
  vm_compute in H.
  assert (Hin : "slow frame" ∈ ["shader failed";
                                "ReferenceError: levelManager is not defined"]).
  { apply H. apply list_elem_of_In. left. exact eq_refl. }
  apply list_elem_of_In in Hin. cbn in Hin.
  repeat (destruct Hin as [Hin|Hin]; [discriminate Hin|]). exact Hin.
Qed.

(** C5, amended.  At the end of a run of [verify_load] the list [errors]
    holds, in the order of emission and as plain text without a severity
    tag, exactly the texts of the console messages of type ["error"] and of
    the uncaught page errors that the page emitted during the page calls of
    the run; console messages of any other type are left out, and nothing the
    browser emitted before the listeners were registered (while launching or
    opening the page) appears. *)
Theorem errors_are_the_kept_events env disk :
  errors (py (verify_load env (boot disk)).2)
  = omap kept (heard env [] (history (verify_load env (boot disk)).2)).
Proof. apply verify_load_errors. Qed.

(** ** C4: a page error does not stop the steps *)

(** The claim as worded fails on [verify_load]: the page throws while
    [page.goto] is in progress, and the wait for the canvas and the steps
    after it still run. *)
Lemma verify_load_goes_on_after_page_error :
  ¬ halts_on_page_error throwing (verify_load throwing (boot ∅)).2.
Proof.
  intros H.
  specialize (H 3%nat (Goto "http://localhost:4173")
                "ReferenceError: levelManager is not defined").
  assert (Hstep : is_step (WaitForSelector "#glCanvas" (Some 10000)) = false).
  { apply (H ltac:(vm_compute; reflexivity) eq_refl) with (j := 4%nat).
    - vm_compute. apply list_elem_of_In. left. exact eq_refl.
    - lia.
    - vm_compute. reflexivity. }
  discriminate Hstep.
Qed.

(** C4, amended.  An uncaught page error observed by [verify_load] is only
    recorded: its text is appended to [errors], and the run makes the same
    calls with the same outcomes, writes the same files and ends the same
    way as against a page that emits nothing. *)
Theorem page_error_is_only_recorded env disk :
  let l := verify_load env (boot disk) in
  let q := verify_load (mute env) (boot disk) in
  l.1 = q.1 ∧ trace l.2 = trace q.2 ∧ fs l.2 = fs q.2 ∧
  lifecycle l.2 = lifecycle q.2 ∧
  ∀ x, EvPageError x ∈ heard env [] (history l.2) → x ∈ errors (py l.2).
Proof.
  cbv zeta.
  destruct (verify_load_alike env (boot disk) (boot disk) (sim_refl _))
    as [Ho (Ht & Hf & _ & Hl & _)].
  split; [|split; [done|split; [done|split; [done|]]]].
  - destruct (verify_load env (boot disk)).1 as [[]|e1],
             (verify_load (mute env) (boot disk)).1 as [[]|e2];
      cbn in Ho; try done. by subst.
  - intros x Hx. rewrite verify_load_errors.
    apply list_elem_of_omap. by exists (EvPageError x).
Qed.

Lemma page_error_is_only_recorded_witness :
  EvPageError "ReferenceError: levelManager is not defined"
    ∈ heard throwing [] (history (verify_load throwing (boot ∅)).2) ∧
  "ReferenceError: levelManager is not defined"
    ∈ errors (py (verify_load throwing (boot ∅)).2) ∧
  steps (verify_load throwing (boot ∅)).2 = passed (plan Load).
Proof.
  assert (Hin : EvPageError "ReferenceError: levelManager is not defined"
    ∈ heard throwing [] (history (verify_load throwing (boot ∅)).2)).
  { vm_compute. apply list_elem_of_In. left. exact eq_refl. }
  split; [exact Hin|]. split; [|vm_compute; reflexivity].
  exact (proj2 (proj2 (proj2 (proj2 (page_error_is_only_recorded throwing ∅)))) _ Hin).
Defined.

(** ** C9: where the screenshots go *)

Ltac shot_case :=
  split; [intros q Hq; cbn; by rewrite ?lookup_insert_ne by done|];
  split;
  [ intros Hin;
    first
      [ solve [trace_cases Hin]
      | match goal with
        | H : ?e ?h (Screenshot _) = _ |- _ =>
            exists h; rewrite H; cbn; apply lookup_insert_eq
        end ]
  | intros Hout; first [reflexivity|exfalso; apply Hout; find_entry] ].

Lemma verify_asteroid_main_files env disk :
  let w' := (verify_asteroid_main env (boot disk)).2 in
  (∀ q, q ≠ "verification/level1.png" → fs w' !! q = disk !! q) ∧
  ((Screenshot "verification/level1.png", None) ∈ trace w' →
     ∃ past, fs w' !! "verification/level1.png"
             = Some (pixels (page (env past (Screenshot "verification/level1.png"))))) ∧
  ((Screenshot "verification/level1.png", None) ∉ trace w' → fs w' = disk).
Proof.
  change (wp (verify_asteroid_main env) (boot disk) (λ _ w',
    (∀ q, q ≠ "verification/level1.png" → fs w' !! q = disk !! q) ∧
    ((Screenshot "verification/level1.png", None) ∈ trace w' →
       ∃ past, fs w' !! "verification/level1.png"
               = Some (pixels (page (env past (Screenshot "verification/level1.png"))))) ∧
    ((Screenshot "verification/level1.png", None) ∉ trace w' → fs w' = disk))).
  unfold verify_asteroid_main, verify_asteroids. wp_run.
  all: shot_case.
Qed.

Lemma run_files env disk :
  let w' := (run env (boot disk)).2 in
  (∀ q, q ≠ "verification/level1.png" → fs w' !! q = disk !! q) ∧
  ((Screenshot "verification/level1.png", None) ∈ trace w' →
     ∃ past, fs w' !! "verification/level1.png"
             = Some (pixels (page (env past (Screenshot "verification/level1.png"))))) ∧
  ((Screenshot "verification/level1.png", None) ∉ trace w' → fs w' = disk).
Proof.
  change (wp (run env) (boot disk) (λ _ w',
    (∀ q, q ≠ "verification/level1.png" → fs w' !! q = disk !! q) ∧
    ((Screenshot "verification/level1.png", None) ∈ trace w' →
       ∃ past, fs w' !! "verification/level1.png"
               = Some (pixels (page (env past (Screenshot "verification/level1.png"))))) ∧
    ((Screenshot "verification/level1.png", None) ∉ trace w' → fs w' = disk))).
  unfold run, run_body. wp_run.
  all: shot_case.
Qed.

(** The claim as worded fails on [verify_asteroid]: a second run finds the
    image of the first run at ["verification/level1.png"] and replaces it
    with its own. *)
Lemma second_run_overwrites_first :
  ¬ keeps_prior_images (verify_asteroid_main calm_later)
      (fs (verify_asteroid_main calm (boot ∅)).2).
Proof.
  intros H. specialize (H "verification/level1.png" "frame-1").
  vm_compute in H. discriminate (H eq_refl).
Qed.

(** C9, amended.  The one Screenshot step of [verify_asteroid] and of the
    waterfall script writes one image file, at the fixed path
    ["verification/level1.png"] written in both scripts: when the step goes
    through, the file at that path holds what the page showed at that call,
    whatever an earlier run left there; when the step is not reached or
    fails, the files are as before; no other path is ever touched. *)
Theorem screenshot_replaces_fixed_path env disk :
  let a := (verify_asteroid_main env (boot disk)).2 in
  let r := (run env (boot disk)).2 in
  ((∀ q, q ≠ "verification/level1.png" → fs a !! q = disk !! q) ∧
   ((Screenshot "verification/level1.png", None) ∈ trace a →
      ∃ past, fs a !! "verification/level1.png"
              = Some (pixels (page (env past (Screenshot "verification/level1.png"))))) ∧
   ((Screenshot "verification/level1.png", None) ∉ trace a → fs a = disk)) ∧
  ((∀ q, q ≠ "verification/level1.png" → fs r !! q = disk !! q) ∧
   ((Screenshot "verification/level1.png", None) ∈ trace r →
      ∃ past, fs r !! "verification/level1.png"
              = Some (pixels (page (env past (Screenshot "verification/level1.png"))))) ∧
   ((Screenshot "verification/level1.png", None) ∉ trace r → fs r = disk)).
Proof.
  cbv zeta. split; [apply verify_asteroid_main_files|apply run_files].
Qed.

Lemma screenshot_replaces_fixed_path_witness :
  (Screenshot "verification/level1.png", None)
    ∈ trace (verify_asteroid_main calm (boot used_disk)).2 ∧
  (∃ past, fs (verify_asteroid_main calm (boot used_disk)).2 !! "verification/level1.png"
           = Some (pixels (page (calm past (Screenshot "verification/level1.png"))))) ∧
  fs (verify_asteroid_main calm (boot used_disk)).2 !! "verification/other.png"
    = used_disk !! "verification/other.png" ∧
  ((Screenshot "verification/level1.png", None)
     ∉ trace (run unreachable (boot used_disk)).2) ∧
  fs (run unreachable (boot used_disk)).2 = used_disk.
Proof.
  assert (Hin : (Screenshot "verification/level1.png", None)
    ∈ trace (verify_asteroid_main calm (boot used_disk)).2).
  { vm_compute. find_entry. }
  assert (Hout : (Screenshot "verification/level1.png", None)
    ∉ trace (run unreachable (boot used_disk)).2).
  { vm_compute. intros Hx. trace_cases Hx. }
  pose proof (screenshot_replaces_fixed_path calm used_disk) as Ha. cbv zeta in Ha.
  pose proof (screenshot_replaces_fixed_path unreachable used_disk) as Hr. cbv zeta in Hr.
  split; [exact Hin|].
  split; [exact (proj1 (proj2 (proj1 Ha)) Hin)|].
  split; [exact (proj1 (proj1 Ha) "verification/other.png" ltac:(discriminate))|].
  split; [exact Hout|].
  exact (proj2 (proj2 (proj2 Hr)) Hout).
Defined.

(** ** C10: the start trigger of the horizon script *)

Lemma js_eval_found id d el :
  el ∈ d → el_id el = id → ∃ el', js_eval (GetElementById id) d = Some el' ∧ el_id el' = id.
Proof.
  intros Hin Hid. cbn.
  destruct (List.find _ d) as [el'|] eqn:Hf.
  - exists el'. split; [done|].
    apply List.find_some in Hf as [_ Hb]. by apply bool_decide_eq_true in Hb.
  - apply list_elem_of_In in Hin.
    pose proof (List.find_none _ _ Hf el Hin) as Hb.
    apply bool_decide_eq_false in Hb. done.
Qed.

Lemma js_eval_missing id d :
  (∀ el, el ∈ d → el_id el ≠ id) → js_eval (GetElementById id) d = None.
Proof.
  intros Hno. cbn.
  destruct (List.find _ d) as [el'|] eqn:Hf; [|done].
  apply List.find_some in Hf as [Hin Hb].
  apply bool_decide_eq_true in Hb. apply list_elem_of_In in Hin.
  by destruct (Hno el' Hin).
Qed.

(** The injected click reaches the element whenever it is in the document;
    its visibility and what lies over it are never looked at. *)
Lemma page_evaluate_click_found env w id el :
  fault (env (history w) (Evaluate (JsCallClick (GetElementById id)))) = None →
  el ∈ dom (page (env (history w) (Evaluate (JsCallClick (GetElementById id))))) →
  el_id el = id →
  ∃ w', page_evaluate env (JsCallClick (GetElementById id)) w = (Ok VNone, w') ∧
        clicks w' = clicks w ++ [id].
Proof.
  intros Hfault Hin Hid. unfold page_evaluate, api. rewrite Hfault.
  cbn [effect evaluate].
  destruct (js_eval_found id _ el Hin Hid) as (el' & -> & Hid').
  eexists. split; [reflexivity|]. cbn. by rewrite Hid'.
Qed.

Lemma page_evaluate_click_missing env w id :
  fault (env (history w) (Evaluate (JsCallClick (GetElementById id)))) = None →
  (∀ el, el ∈ dom (page (env (history w) (Evaluate (JsCallClick (GetElementById id))))) →
         el_id el ≠ id) →
  ∃ msg w', page_evaluate env (JsCallClick (GetElementById id)) w
            = (Raise (PwError InteractionError msg), w') ∧
            clicks w' = clicks w.
Proof.
  intros Hfault Hno. unfold page_evaluate, api. rewrite Hfault.
  cbn [effect evaluate]. rewrite (js_eval_missing id _ Hno).
  eexists _, _. split; [reflexivity|done].
Qed.

(** In the script: once the steps before it went through, the injected
    click is always attempted, and it goes through exactly when the element
    is in the document. *)
Lemma found_has_id id (d : list Element) e :
  List.find (λ el, bool_decide (el_id el = id)) d = Some e → e ∈ d ∧ el_id e = id.
Proof.
  intros Hf. apply List.find_some in Hf as [Hin Hb].
  split; [by apply list_elem_of_In|by apply bool_decide_eq_true in Hb].
Qed.

Lemma verify_horizon_main_injects_click env disk :
  let w' := (verify_horizon_main env (boot disk)).2 in
  (IsVisible "#instructions", None) ∈ trace w' →
  fault (env horizon_calls_before_click (Evaluate click_instructions_js)) = None →
  ((∃ el, el ∈ dom (page (env horizon_calls_before_click (Evaluate click_instructions_js)))
          ∧ el_id el = "instructions") →
     (Evaluate click_instructions_js, None) ∈ trace w' ∧ clicks w' = ["instructions"]) ∧
  ((∀ el, el ∈ dom (page (env horizon_calls_before_click (Evaluate click_instructions_js)))
          → el_id el ≠ "instructions") →
     (Evaluate click_instructions_js, Some InteractionError) ∈ trace w' ∧
     clicks w' = [] ∧
     first_failure (steps w')
       = Some (4%nat, Evaluate click_instructions_js, InteractionError)).
Proof.
  change (wp (verify_horizon_main env) (boot disk) (λ _ w',
    (IsVisible "#instructions", None) ∈ trace w' →
    fault (env horizon_calls_before_click (Evaluate click_instructions_js)) = None →
    ((∃ el, el ∈ dom (page (env horizon_calls_before_click
                                 (Evaluate click_instructions_js)))
            ∧ el_id el = "instructions") →
       (Evaluate click_instructions_js, None) ∈ trace w' ∧ clicks w' = ["instructions"]) ∧
    ((∀ el, el ∈ dom (page (env horizon_calls_before_click
                                 (Evaluate click_instructions_js)))
            → el_id el ≠ "instructions") →
       (Evaluate click_instructions_js, Some InteractionError) ∈ trace w' ∧
       clicks w' = [] ∧
       first_failure (steps w')
         = Some (4%nat, Evaluate click_instructions_js, InteractionError)))).
  unfold verify_horizon_main, verify_horizon. wp_run.
  all: intros Hin; try solve [trace_cases Hin].
  all: unfold horizon_calls_before_click; use_env; cbn [fault page];
       intros Hfault; try discriminate Hfault.
  all: split; [intros (el & Hel & Hid)|intros Hno].
  all: try match goal with
       | H : List.find _ _ = Some ?e0 |- _ =>
           destruct (found_has_id _ _ _ H) as [Hin0 Hid0]
       end.
  all: try (exfalso; by apply (Hno _ Hin0)).
  all: try (split; [find_entry|by rewrite Hid0]).
  - exfalso. apply list_elem_of_In in Hel.
    match goal with
    | H : List.find _ _ = None |- _ => pose proof (List.find_none _ _ H el Hel) as Hb
    end.
    cbn in Hb. apply bool_decide_eq_false in Hb. done.
  - split; [find_entry|done].
Qed.

(** C10.  The horizon script never uses the click primitive; it starts the
    game by evaluating [document.getElementById('instructions').click()] in
    the page.  In a run of the script whose earlier steps went through, the
    Evaluate step is always made: whenever an element with id
    ["instructions"] is in the document, visible or not, covered or not,
    the step goes through and that element has received the click; when
    there is no such element the step fails with an interaction error and
    nothing is clicked.  The same holds of the call on its own, in any
    state.  A failure of that step ends [verify_horizon] with the same
    exception, raised to its caller, no later step being run. *)
Theorem js_click_needs_only_the_element env w disk :
  (∀ sel force, Click sel force ∉ (attempted (verify_horizon env) w).*1) ∧
  ((IsVisible "#instructions", None) ∈ trace (verify_horizon_main env (boot disk)).2 →
   fault (env horizon_calls_before_click (Evaluate click_instructions_js)) = None →
     ((∃ el, el ∈ dom (page (env horizon_calls_before_click
                                  (Evaluate click_instructions_js)))
             ∧ el_id el = "instructions") →
        (Evaluate click_instructions_js, None)
          ∈ trace (verify_horizon_main env (boot disk)).2 ∧
        clicks (verify_horizon_main env (boot disk)).2 = ["instructions"]) ∧
     ((∀ el, el ∈ dom (page (env horizon_calls_before_click
                                  (Evaluate click_instructions_js)))
             → el_id el ≠ "instructions") →
        (Evaluate click_instructions_js, Some InteractionError)
          ∈ trace (verify_horizon_main env (boot disk)).2 ∧
        clicks (verify_horizon_main env (boot disk)).2 = [] ∧
        first_failure (steps (verify_horizon_main env (boot disk)).2)
          = Some (4%nat, Evaluate click_instructions_js, InteractionError))) ∧
  (fault (env (history w) (Evaluate click_instructions_js)) = None →
     (∀ el, el ∈ dom (page (env (history w) (Evaluate click_instructions_js))) →
            el_id el = "instructions" →
            ∃ w', page_evaluate env click_instructions_js w = (Ok VNone, w') ∧
                  clicks w' = clicks w ++ ["instructions"]) ∧
     ((∀ el, el ∈ dom (page (env (history w) (Evaluate click_instructions_js))) →
             el_id el ≠ "instructions") →
      ∃ msg w', page_evaluate env click_instructions_js w
                = (Raise (PwError InteractionError msg), w') ∧
                clicks w' = clicks w)) ∧
  (∀ i k, first_failure (attempted (verify_horizon env) w)
          = Some (i, Evaluate click_instructions_js, k) →
     length (attempted (verify_horizon env) w) = S i ∧
     ∃ msg, (verify_horizon env w).1 = Raise (PwError k msg)).
Proof.
  split; [|split; [|split]].
  - intros sel force Hin.
    destruct (runs_prefix (verify_horizon env) (plan Horizon) w (runs_scenario env Horizon))
      as [rest Hp].
    assert (Hplan : Click sel force ∈ plan Horizon).
    { rewrite Hp. apply elem_of_app. by left. }
    cbn in Hplan. trace_cases Hplan.
  - apply verify_horizon_main_injects_click.
  - intros Hfault. split.
    + intros el Hin Hid. by apply (page_evaluate_click_found env w "instructions" el).
    + intros Hno. by apply page_evaluate_click_missing.
  - intros i k Hff.
    destruct (runs_stops (verify_horizon env) (plan Horizon) w i _ k
                (runs_scenario env Horizon) Hff) as (Hlen & _ & Hr).
    done.
Qed.

Lemma js_click_needs_only_the_element_witness :
  visible hidden_instructions_el = false ∧
  covers overlay_el hidden_instructions_el = true ∧
  visible instructions_el = true ∧
  ((Evaluate click_instructions_js, None) ∈ trace (verify_horizon_main veiled (boot ∅)).2 ∧
   clicks (verify_horizon_main veiled (boot ∅)).2 = ["instructions"]) ∧
  ((Evaluate click_instructions_js, None) ∈ trace (verify_horizon_main calm (boot ∅)).2 ∧
   clicks (verify_horizon_main calm (boot ∅)).2 = ["instructions"]) ∧
  ((Evaluate click_instructions_js, Some InteractionError)
     ∈ trace (verify_horizon_main no_instructions (boot ∅)).2 ∧
   clicks (verify_horizon_main no_instructions (boot ∅)).2 = [] ∧
   first_failure (steps (verify_horizon_main no_instructions (boot ∅)).2)
     = Some (4%nat, Evaluate click_instructions_js, InteractionError)) ∧
  (∃ w', page_evaluate veiled click_instructions_js (boot ∅) = (Ok VNone, w') ∧
         clicks w' = clicks (boot ∅) ++ ["instructions"]) ∧
  (∃ msg w', page_evaluate no_instructions click_instructions_js (boot ∅)
             = (Raise (PwError InteractionError msg), w') ∧
             clicks w' = clicks (boot ∅)) ∧
  first_failure (attempted (verify_horizon no_instructions) (boot ∅))
    = Some (4%nat, Evaluate click_instructions_js, InteractionError) ∧
  length (attempted (verify_horizon no_instructions) (boot ∅)) = 5%nat ∧
  ∃ msg, (verify_horizon no_instructions (boot ∅)).1 = Raise (PwError InteractionError msg).
Proof.
  assert (Hff : first_failure (attempted (verify_horizon no_instructions) (boot ∅))
    = Some (4%nat, Evaluate click_instructions_js, InteractionError))
    by (vm_compute; reflexivity).
  assert (Hvv : (IsVisible "#instructions", None)
                ∈ trace (verify_horizon_main veiled (boot ∅)).2)
    by (vm_compute; find_entry).
  assert (Hvc : (IsVisible "#instructions", None)
                ∈ trace (verify_horizon_main calm (boot ∅)).2)
    by (vm_compute; find_entry).
  assert (Hvn : (IsVisible "#instructions", None)
                ∈ trace (verify_horizon_main no_instructions (boot ∅)).2)
    by (vm_compute; find_entry).
  destruct (js_click_needs_only_the_element veiled (boot ∅) ∅) as (_ & Hsv & Hv & _).
  destruct (js_click_needs_only_the_element calm (boot ∅) ∅) as (_ & Hsc & _ & _).
  destruct (js_click_needs_only_the_element no_instructions (boot ∅) ∅)
    as (_ & Hsn & Hn & Hp).
  split; [reflexivity|]. split; [reflexivity|]. split; [reflexivity|].
  split.
  { apply (proj1 (Hsv Hvv eq_refl)). exists hidden_instructions_el.
    split; [|reflexivity]. apply list_elem_of_In. right. left. exact eq_refl. }
  split.
  { apply (proj1 (Hsc Hvc eq_refl)). exists instructions_el.
    split; [|reflexivity]. apply list_elem_of_In. right. left. exact eq_refl. }
  split.
  { apply (proj2 (Hsn Hvn eq_refl)). intros el Hin.
    apply list_elem_of_In in Hin. destruct Hin as [<-|[]]. discriminate. }
  split.
  { apply (proj1 (Hv eq_refl) hidden_instructions_el); [|reflexivity].
    apply list_elem_of_In. right. left. exact eq_refl. }
  split.
  { apply (proj2 (Hn eq_refl)). intros el Hin.
    apply list_elem_of_In in Hin. destruct Hin as [<-|[]]. discriminate. }
  split; [exact Hff|].
  exact (Hp 4%nat InteractionError Hff).
Defined.

(** ** C8: forced and unforced clicks on a covered element *)

Lemma visible_size e :
  visible e = true → 0 < box_w (el_box e) ∧ 0 < box_h (el_box e).
Proof.
  unfold visible. rewrite !andb_true_iff, !Z.ltb_lt. tauto.
Qed.

(** The point a click aims at lies inside the box of a displayed element. *)
Lemma center_inside b : 0 < box_w b → 0 < box_h b → inside (center b) b = true.
Proof.
  intros Hw Hh. unfold inside, center. cbn [fst snd].
  assert (0 <= box_w b / 2 < box_w b)
    by (split; [apply Z.div_pos; lia|apply Z.div_lt; lia]).
  assert (0 <= box_h b / 2 < box_h b)
    by (split; [apply Z.div_pos; lia|apply Z.div_lt; lia]).
  rewrite !andb_true_iff, !Z.leb_le, !Z.ltb_lt. lia.
Qed.

Lemma inside_within p a b : inside p a = true → within a b = true → inside p b = true.
Proof.
  unfold inside, within.
  rewrite !andb_true_iff, !Z.leb_le, !Z.ltb_lt. lia.
Qed.

(** An element that is fully covered is not actionable: either it is not
    displayed at all, or the covering element sits on the point a click is
    aimed at. *)
Lemma covered_not_actionable o t d :
  o ∈ d → covers o t = true → actionable t d = false.
Proof.
  intros Hin Hc. unfold actionable.
  destruct (visible t) eqn:Hv; [|done]. cbn.
  apply negb_false_iff. unfold obscured. apply existsb_exists.
  exists o. split; [by apply list_elem_of_In|].
  unfold covers in Hc. apply andb_true_iff in Hc as [Hc Hwithin].
  rewrite Hc. cbn.
  destruct (visible_size t Hv) as [Hw Hh].
  eapply inside_within; [by apply center_inside|done].
Qed.

(** C8.  On a page where the element the selector finds is fully covered by
    another element, the click with [force=True] returns and the element has
    received the click, while the click without force against the same page
    raises a timeout or interaction error and nothing is clicked. *)
Theorem forced_click_ignores_cover env w sel pg t o :
  (∀ force, fault (env (history w) (Click sel force)) = None ∧
            page (env (history w) (Click sel force)) = pg) →
  query sel (dom pg) = Some t →
  o ∈ dom pg →
  covers o t = true →
  (∃ w', locator_click env sel true w = (Ok VNone, w') ∧
         clicks w' = clicks w ++ [el_id t]) ∧
  (∃ k msg w', locator_click env sel false w = (Raise (PwError k msg), w') ∧
               (k = InteractionError ∨ k = TimeoutError) ∧
               clicks w' = clicks w).
Proof.
  intros Henv Hq Hin Hc. unfold locator_click, api. split.
  - destruct (Henv true) as [-> ->]. cbn [effect]. unfold click. rewrite Hq.
    eexists. split; [reflexivity|done].
  - destruct (Henv false) as [-> ->]. cbn [effect]. unfold click. rewrite Hq.
    rewrite (covered_not_actionable o t (dom pg) Hin Hc).
    eexists _, _, _. split; [reflexivity|]. split; [by right|done].
Qed.

Lemma forced_click_ignores_cover_witness :
  query "#instructions" (dom covered_page) = Some instructions_el ∧
  covers overlay_el instructions_el = true ∧
  (∃ w', locator_click layered "#instructions" true (boot ∅) = (Ok VNone, w') ∧
         clicks w' = clicks (boot ∅) ++ [el_id instructions_el]) ∧
  (∃ k msg w', locator_click layered "#instructions" false (boot ∅)
               = (Raise (PwError k msg), w') ∧
               (k = InteractionError ∨ k = TimeoutError) ∧
               clicks w' = clicks (boot ∅)).
Proof.
  split; [reflexivity|]. split; [reflexivity|].
  apply (forced_click_ignores_cover layered (boot ∅) "#instructions" covered_page
           instructions_el overlay_el).
  - intros force. split; reflexivity.
  - reflexivity.
  - apply list_elem_of_In. right. right. left. exact eq_refl.
  - reflexivity.
Defined.

(** ** C7: closing twice *)

Lemma close_closed w : lifecycle (close w) = Closed.
Proof. unfold close. by destruct (lifecycle w) eqn:H. Qed.

Lemma close_twice w : close (close w) = close w.
Proof. unfold close at 1. by rewrite close_closed. Qed.

Lemma close_many n w : Nat.iter (S n) close w = close w.
Proof.
  induction n as [|n IH]; [done|].
  change (close (Nat.iter (S n) close w) = close w). by rewrite IH, close_twice.
Qed.

(** C7.  Closing a session a second time changes nothing: [close] after
    [close] is [close], however often it is repeated; the session ends up
    Closed, and the browser process is released once if the session was not
    yet closed and not again otherwise.  Two calls of [browser.close()] in a
    row both return and leave the session, the files and the output as one
    call does. *)
Theorem close_is_idempotent w n :
  close (close w) = close w ∧
  Nat.iter (S n) close w = close w ∧
  lifecycle (close w) = Closed ∧
  releases (Nat.iter (S n) close w)
    = match lifecycle w with Closed => releases w | _ => S (releases w) end ∧
  (browser_close ≫= λ _, browser_close) w
    = (Ok tt, record Close None (browser_close w).2).
Proof.
  split; [apply close_twice|]. split; [apply close_many|].
  split; [apply close_closed|]. split.
  - rewrite close_many. unfold close. by destruct (lifecycle w).
  - unfold mbind, M_bind, bind, browser_close. cbn [fst snd].
    f_equal. f_equal. unfold close at 1. cbn [lifecycle record set_trace].
    by rewrite close_closed.
Qed.
(** * Further properties of the scripts *)

(** ** Every step in order when nothing fails *)

Lemma runs_all {A} (m : M A) todo w :
  runs m todo →
  (first_failure (attempted m w) = None ↔ ∃ a, (m w).1 = Ok a) ∧
  ((∃ a, (m w).1 = Ok a) → attempted m w = passed todo).
Proof.
  intros Hm. destruct (Hm w) as (log & Hs & Ha).
  rewrite (attempted_log _ _ _ Hs). unfold first_failure.
  inversion Ha as [a Hr Hl|done c' rest k' msg Hp Hr Hl].
  - rewrite first_failure_from_passed. split; [|done].
    split; [by exists a|done].
  - rewrite first_failure_from_stop. split.
    + split; [done|]. by intros [a Ha'].
    + by intros [a Ha'].
Qed.

(** A scenario returns exactly when none of its steps failed, and then it
    has attempted all its steps, each once, in the order of the source. *)
Theorem scenario_returns_iff_no_step_failed env s w :
  (first_failure (attempted (scenario env s) w) = None ↔ (scenario env s w).1 = Ok tt) ∧
  ((scenario env s w).1 = Ok tt →
     attempted (scenario env s) w = passed (plan s)).
Proof.
  destruct (runs_all (scenario env s) (plan s) w (runs_scenario env s)) as [Hiff Hall].
  split.
  - rewrite Hiff. split; [by intros [[] ?]|by exists tt].
  - intros Hr. apply Hall. by exists tt.
Qed.

Lemma scenario_returns_iff_no_step_failed_witness :
  (scenario calm Level2 (boot ∅)).1 = Ok tt ∧
  attempted (scenario calm Level2) (boot ∅) = passed (plan Level2).
Proof.
  assert (Hr : (scenario calm Level2 (boot ∅)).1 = Ok tt) by (vm_compute; reflexivity).
  split; [exact Hr|].
  exact (proj2 (scenario_returns_iff_no_step_failed calm Level2 (boot ∅)) Hr).
Defined.

(** ** Closing on every way out of the guarded scripts *)

(** In the four scripts that run their steps under [try ... finally], and in
    the waterfall script whose [except] swallows every failure of a step,
    [browser.close()] is called exactly once whichever way the steps end,
    once the page has been opened: the log of a run holds one [Close] call,
    the session is closed and the browser has been released once. *)
Theorem guarded_scripts_close_once env disk :
  ((NewPage, None) ∈ trace (verify_asteroid_main env (boot disk)).2 →
     close_calls (verify_asteroid_main env (boot disk)).2 = 1%nat ∧
     lifecycle (verify_asteroid_main env (boot disk)).2 = Closed ∧
     releases (verify_asteroid_main env (boot disk)).2 = 1%nat) ∧
  ((NewPage, None) ∈ trace (verify_level_2_main env (boot disk)).2 →
     close_calls (verify_level_2_main env (boot disk)).2 = 1%nat ∧
     lifecycle (verify_level_2_main env (boot disk)).2 = Closed ∧
     releases (verify_level_2_main env (boot disk)).2 = 1%nat) ∧
  ((NewPage, None) ∈ trace (verify_horizon_main env (boot disk)).2 →
     close_calls (verify_horizon_main env (boot disk)).2 = 1%nat ∧
     lifecycle (verify_horizon_main env (boot disk)).2 = Closed ∧
     releases (verify_horizon_main env (boot disk)).2 = 1%nat) ∧
  ((NewPage, None) ∈ trace (verify_load env (boot disk)).2 →
     close_calls (verify_load env (boot disk)).2 = 1%nat ∧
     lifecycle (verify_load env (boot disk)).2 = Closed ∧
     releases (verify_load env (boot disk)).2 = 1%nat) ∧
  ((NewPage, None) ∈ trace (run env (boot disk)).2 →
     close_calls (run env (boot disk)).2 = 1%nat ∧
     lifecycle (run env (boot disk)).2 = Closed ∧
     releases (run env (boot disk)).2 = 1%nat).
Proof.
  pose proof (verify_asteroid_main_closes env disk) as Ha.
  pose proof (verify_level_2_main_closes env disk) as Hl.
  pose proof (verify_horizon_main_closes env disk) as Hh.
  pose proof (verify_load_closes env disk) as Hv.
  pose proof (run_closes env disk) as Hr.
  cbv zeta in Ha, Hl, Hh, Hv, Hr.
  split; [intros Hin; by destruct (Ha Hin) as (? & ? & ?)|].
  split; [intros Hin; by destruct (Hl Hin) as (? & ? & ?)|].
  split; [intros Hin; by destruct (Hh Hin) as (? & ? & ?)|].
  split; [intros Hin; by destruct (Hv Hin) as (? & ? & ?)|].
  intros Hin; by destruct (Hr Hin) as (? & ? & ?).
Qed.

Lemma guarded_scripts_close_once_witness :
  (NewPage, None) ∈ trace (verify_level_2_main flaky (boot ∅)).2 ∧
  close_calls (verify_level_2_main flaky (boot ∅)).2 = 1%nat ∧
  lifecycle (verify_level_2_main flaky (boot ∅)).2 = Closed ∧
  releases (verify_level_2_main flaky (boot ∅)).2 = 1%nat.
Proof.
  assert (Hin : (NewPage, None) ∈ trace (verify_level_2_main flaky (boot ∅)).2).
  { vm_compute. find_entry. }
  split; [exact Hin|].
  exact (proj1 (proj2 (guarded_scripts_close_once flaky ∅)) Hin).
Defined.

(** [verify_reentry] has no [try]: [browser.close()] is its last line and is
    called, once, exactly when everything before it went through; any
    failure, of the launch, of opening the page or of a step, leaves the
    function before that line and the call is not made.  A browser that was
    launched is then released by the exit of the [with] block, so that it is
    released once on either way out. *)
Theorem verify_reentry_closes_only_on_success env disk :
  ((verify_reentry env (boot disk)).1 = Ok tt →
     close_calls (verify_reentry env (boot disk)).2 = 1%nat) ∧
  ((verify_reentry env (boot disk)).1 ≠ Ok tt →
     close_calls (verify_reentry env (boot disk)).2 = 0%nat) ∧
  (∀ h, (Launch h, None) ∈ trace (verify_reentry env (boot disk)).2 →
     lifecycle (verify_reentry env (boot disk)).2 = Closed ∧
     releases (verify_reentry env (boot disk)).2 = 1%nat).
Proof.
  pose proof (verify_reentry_close_calls env disk) as [Hok Hko].
  split; [exact Hok|]. split; [exact Hko|].
  exact (proj1 (verify_reentry_releases env disk)).
Qed.

Lemma verify_reentry_closes_only_on_success_witness :
  (verify_reentry layered (boot ∅)).1 = Ok tt ∧
  close_calls (verify_reentry layered (boot ∅)).2 = 1%nat ∧
  (verify_reentry unreachable (boot ∅)).1 ≠ Ok tt ∧
  close_calls (verify_reentry unreachable (boot ∅)).2 = 0%nat ∧
  (Launch (Some true), None) ∈ trace (verify_reentry unreachable (boot ∅)).2 ∧
  lifecycle (verify_reentry unreachable (boot ∅)).2 = Closed ∧
  releases (verify_reentry unreachable (boot ∅)).2 = 1%nat.
Proof.
  assert (Hok : (verify_reentry layered (boot ∅)).1 = Ok tt) by (vm_compute; reflexivity).
  assert (Hko : (verify_reentry unreachable (boot ∅)).1 ≠ Ok tt)
    by (vm_compute; discriminate).
  assert (Hin : (Launch (Some true), None)
                ∈ trace (verify_reentry unreachable (boot ∅)).2)
    by (vm_compute; find_entry).
  split; [exact Hok|].
  split; [exact (proj1 (verify_reentry_closes_only_on_success layered ∅) Hok)|].
  split; [exact Hko|].
  split; [exact (proj1 (proj2 (verify_reentry_closes_only_on_success unreachable ∅)) Hko)|].
  split; [exact Hin|].
  exact (proj2 (proj2 (verify_reentry_closes_only_on_success unreachable ∅))
           (Some true) Hin).
Defined.

(** ** A page that cannot be opened *)

Ltac bypass_case H :=
  trace_cases H; injection H as <-; repeat split; by eexists.

Lemma verify_asteroid_main_page_failure env disk :
  bypasses_close (verify_asteroid_main env) disk.
Proof.
  intros k.
  change (wp (verify_asteroid_main env) (boot disk) (λ r w',
    (NewPage, Some k) ∈ trace w' →
    length (List.filter (λ e, is_close e.1) (trace w')) = 0%nat ∧
    steps w' = [] ∧
    (∃ msg, r = Raise (PwError k msg)) ∧
    lifecycle w' = Closed ∧ releases w' = 1%nat)).
  unfold verify_asteroid_main, verify_asteroids. wp_run.
  all: intros Hin; bypass_case Hin.
Qed.

Lemma verify_level_2_main_page_failure env disk :
  bypasses_close (verify_level_2_main env) disk.
Proof.
  intros k.
  change (wp (verify_level_2_main env) (boot disk) (λ r w',
    (NewPage, Some k) ∈ trace w' →
    length (List.filter (λ e, is_close e.1) (trace w')) = 0%nat ∧
    steps w' = [] ∧
    (∃ msg, r = Raise (PwError k msg)) ∧
    lifecycle w' = Closed ∧ releases w' = 1%nat)).
  unfold verify_level_2_main, verify_level_2. wp_run.
  all: intros Hin; bypass_case Hin.
Qed.

Lemma verify_horizon_main_page_failure env disk :
  bypasses_close (verify_horizon_main env) disk.
Proof.
  intros k.
  change (wp (verify_horizon_main env) (boot disk) (λ r w',
    (NewPage, Some k) ∈ trace w' →
    length (List.filter (λ e, is_close e.1) (trace w')) = 0%nat ∧
    steps w' = [] ∧
    (∃ msg, r = Raise (PwError k msg)) ∧
    lifecycle w' = Closed ∧ releases w' = 1%nat)).
  unfold verify_horizon_main, verify_horizon. wp_run.
  all: intros Hin; bypass_case Hin.
Qed.

Lemma verify_load_page_failure env disk :
  bypasses_close (verify_load env) disk.
Proof.
  intros k.
  change (wp (verify_load env) (boot disk) (λ r w',
    (NewPage, Some k) ∈ trace w' →
    length (List.filter (λ e, is_close e.1) (trace w')) = 0%nat ∧
    steps w' = [] ∧
    (∃ msg, r = Raise (PwError k msg)) ∧
    lifecycle w' = Closed ∧ releases w' = 1%nat)).
  unfold verify_load, verify_load_body. wp_run.
  all: intros Hin; bypass_case Hin.
Qed.

Lemma verify_reentry_page_failure env disk :
  bypasses_close (verify_reentry env) disk.
Proof.
  intros k.
  change (wp (verify_reentry env) (boot disk) (λ r w',
    (NewPage, Some k) ∈ trace w' →
    length (List.filter (λ e, is_close e.1) (trace w')) = 0%nat ∧
    steps w' = [] ∧
    (∃ msg, r = Raise (PwError k msg)) ∧
    lifecycle w' = Closed ∧ releases w' = 1%nat)).
  unfold verify_reentry. wp_run.
  all: intros Hin; bypass_case Hin.
Qed.

Lemma run_page_failure env disk :
  bypasses_close (run env) disk.
Proof.
  intros k.
  change (wp (run env) (boot disk) (λ r w',
    (NewPage, Some k) ∈ trace w' →
    length (List.filter (λ e, is_close e.1) (trace w')) = 0%nat ∧
    steps w' = [] ∧
    (∃ msg, r = Raise (PwError k msg)) ∧
    lifecycle w' = Closed ∧ releases w' = 1%nat)).
  unfold run, run_body. wp_run.
  all: intros Hin; bypass_case Hin.
Qed.

(** In all six scripts the page is opened outside every [try]: when
    [new_page()] raises after the browser was launched, the script ends with
    that exception, also where the steps are guarded by [except Exception];
    no step is attempted and [browser.close()] is never called.  The browser
    is released all the same, by the exit of the [with] block. *)
Theorem page_failure_skips_close env disk :
  bypasses_close (verify_asteroid_main env) disk ∧
  bypasses_close (verify_level_2_main env) disk ∧
  bypasses_close (verify_horizon_main env) disk ∧
  bypasses_close (verify_load env) disk ∧
  bypasses_close (verify_reentry env) disk ∧
  bypasses_close (run env) disk.
Proof.
  split; [apply verify_asteroid_main_page_failure|].
  split; [apply verify_level_2_main_page_failure|].
  split; [apply verify_horizon_main_page_failure|].
  split; [apply verify_load_page_failure|].
  split; [apply verify_reentry_page_failure|apply run_page_failure].
Qed.

Lemma page_failure_skips_close_witness :
  (NewPage, Some LaunchError) ∈ trace (verify_horizon_main no_page (boot ∅)).2 ∧
  close_calls (verify_horizon_main no_page (boot ∅)).2 = 0%nat ∧
  steps (verify_horizon_main no_page (boot ∅)).2 = [] ∧
  (∃ msg, (verify_horizon_main no_page (boot ∅)).1 = Raise (PwError LaunchError msg)) ∧
  lifecycle (verify_horizon_main no_page (boot ∅)).2 = Closed ∧
  releases (verify_horizon_main no_page (boot ∅)).2 = 1%nat.
Proof.
  assert (Hin : (NewPage, Some LaunchError)
                ∈ trace (verify_horizon_main no_page (boot ∅)).2).
  { vm_compute. find_entry. }
  split; [exact Hin|].
  exact (proj1 (proj2 (proj2 (page_failure_skips_close no_page ∅))) LaunchError Hin).
Defined.

(** ** Scripts without an [except] clause *)

Lemma verify_asteroid_main_propagates env disk :
  step_failure_propagates (verify_asteroid_main env) disk.
Proof.
  intros i c k.
  change (wp (verify_asteroid_main env) (boot disk) (λ r w',
    first_failure (steps w') = Some (i, c, k) →
    (∃ msg, r = Raise (PwError k msg)) ∧ lifecycle w' = Closed ∧
    releases w' = 1%nat ∧ stdout (py w') = [])).
  unfold verify_asteroid_main, verify_asteroids. wp_run.
  all: intros Hff; try discriminate Hff.
  all: injection Hff as <- <- <-.
  all: autorewrite with listeners; cbn.
  all: repeat split; try done; by eexists.
Qed.

Lemma verify_level_2_main_propagates env disk :
  step_failure_propagates (verify_level_2_main env) disk.
Proof.
  intros i c k.
  change (wp (verify_level_2_main env) (boot disk) (λ r w',
    first_failure (steps w') = Some (i, c, k) →
    (∃ msg, r = Raise (PwError k msg)) ∧ lifecycle w' = Closed ∧
    releases w' = 1%nat ∧ stdout (py w') = [])).
  unfold verify_level_2_main, verify_level_2. wp_run.
  all: intros Hff; try discriminate Hff.
  all: injection Hff as <- <- <-.
  all: autorewrite with listeners; cbn.
  all: repeat split; try done; by eexists.
Qed.

(** [verify_asteroid] and [verify_level_2] have [try ... finally] and no
    [except]: a failed step ends the script with the exception of that
    step, after the browser has been closed, and nothing has been printed. *)
Theorem unhandled_step_failure_propagates env disk :
  step_failure_propagates (verify_asteroid_main env) disk ∧
  step_failure_propagates (verify_level_2_main env) disk.
Proof.
  split; [apply verify_asteroid_main_propagates|apply verify_level_2_main_propagates].
Qed.

Lemma unhandled_step_failure_propagates_witness :
  first_failure (steps (verify_asteroid_main flaky (boot ∅)).2)
    = Some (1%nat, WaitForSelector "canvas" None, TimeoutError) ∧
  (∃ msg, (verify_asteroid_main flaky (boot ∅)).1 = Raise (PwError TimeoutError msg)) ∧
  lifecycle (verify_asteroid_main flaky (boot ∅)).2 = Closed ∧
  releases (verify_asteroid_main flaky (boot ∅)).2 = 1%nat ∧
  stdout (py (verify_asteroid_main flaky (boot ∅)).2) = [].
Proof.
  assert (Hff : first_failure (steps (verify_asteroid_main flaky (boot ∅)).2)
    = Some (1%nat, WaitForSelector "canvas" None, TimeoutError))
    by (vm_compute; reflexivity).
  split; [exact Hff|].
  exact (proj1 (unhandled_step_failure_propagates flaky ∅) _ _ _ Hff).
Defined.

(** ** No script is steered by what the page emits *)

Lemma alike_unaffected (script : Env → M unit) env disk :
  alike (script env) (script (mute env)) → unaffected script env disk.
Proof.
  intros Ha. destruct (Ha (boot disk) (boot disk) (sim_refl _))
    as [Ho (Ht & Hf & Hc & _ & Hr)].
  unfold unaffected.
  split; [|done].
  destruct (script env (boot disk)).1 as [[]|e1],
           (script (mute env) (boot disk)).1 as [[]|e2];
    cbn in Ho; try done. by subst.
Qed.

Lemma verify_asteroid_main_alike env :
  alike (verify_asteroid_main env) (verify_asteroid_main (mute env)).
Proof.
  unfold verify_asteroid_main, verify_asteroids. wp_unfold. repeat alike_step.
Qed.

Lemma verify_level_2_main_alike env :
  alike (verify_level_2_main env) (verify_level_2_main (mute env)).
Proof.
  unfold verify_level_2_main, verify_level_2. wp_unfold. repeat alike_step.
Qed.

Lemma verify_horizon_main_alike env :
  alike (verify_horizon_main env) (verify_horizon_main (mute env)).
Proof.
  unfold verify_horizon_main, verify_horizon. wp_unfold. repeat alike_step.
Qed.

Lemma verify_reentry_alike env :
  alike (verify_reentry env) (verify_reentry (mute env)).
Proof.
  unfold verify_reentry. wp_unfold. repeat alike_step.
Qed.

Lemma run_alike env : alike (run env) (run (mute env)).
Proof.
  unfold run, run_body. wp_unfold. repeat alike_step.
Qed.

(** Console messages and page errors never change what a script does: each
    of the six scripts makes the same calls with the same outcomes, clicks
    the same elements, writes the same files, closes the browser as often
    and ends the same way as it does against a page that emits nothing.
    Only what is printed can differ. *)
Theorem scripts_unaffected_by_page_events env disk :
  unaffected verify_asteroid_main env disk ∧
  unaffected verify_level_2_main env disk ∧
  unaffected verify_horizon_main env disk ∧
  unaffected verify_load env disk ∧
  unaffected verify_reentry env disk ∧
  unaffected run env disk.
Proof.
  split; [apply alike_unaffected, verify_asteroid_main_alike|].
  split; [apply alike_unaffected, verify_level_2_main_alike|].
  split; [apply alike_unaffected, verify_horizon_main_alike|].
  split; [apply alike_unaffected, verify_load_alike|].
  split; [apply alike_unaffected, verify_reentry_alike|].
  apply alike_unaffected, run_alike.
Qed.

(** ** What [verify_load] prints when no call fails *)

(** When [verify_load] returns, it has printed its three progress lines, the
    WebGPU note exactly when the page content contains ["WebGPU not
    supported"], and the report on the collected errors: ["No console
    errors."] when the list is empty, and otherwise ["Console Errors
    found:"] followed by one ["- "] line per collected error, in order.
    Collected errors do not make the script fail. *)
Theorem verify_load_report env disk :
  (verify_load env (boot disk)).1 = Ok tt →
  stdout (py (verify_load env (boot disk)).2)
  = ["Navigating to app..."; "Waiting for canvas..."; "Taking screenshot..."] ++
    (if contains "WebGPU not supported" (html (page (env load_calls_before_content Content)))
     then ["WebGPU not supported warning found (Expected in this env)."] else []) ++
    errors_report (errors (py (verify_load env (boot disk)).2)).
Proof.
  change (wp (verify_load env) (boot disk) (λ r w',
    r = Ok tt →
    stdout (py w')
    = ["Navigating to app..."; "Waiting for canvas..."; "Taking screenshot..."] ++
      (if contains "WebGPU not supported"
            (html (page (env load_calls_before_content Content)))
       then ["WebGPU not supported warning found (Expected in this env)."] else []) ++
      errors_report (errors (py w')))).
  unfold verify_load, verify_load_body. wp_run.
  all: intros Hr; try discriminate Hr.
  all: unfold load_calls_before_content; use_env; cbn [page html].
  all: autorewrite with listeners in *; cbn [errors stdout app] in *.
  all: repeat match goal with
       | H : contains _ _ = _ |- _ => rewrite H; clear H
       | H : _ = [] |- _ => rewrite H; clear H
       | H : _ = _ :: _ |- _ => rewrite H; clear H
       end.
  all: reflexivity.
Qed.

Lemma verify_load_report_witness :
  (verify_load without_webgpu (boot ∅)).1 = Ok tt ∧
  stdout (py (verify_load without_webgpu (boot ∅)).2)
  = ["Navigating to app..."; "Waiting for canvas..."; "Taking screenshot...";
     "WebGPU not supported warning found (Expected in this env).";
     "Console Errors found:"; "- WebGPU not supported on this browser"].
Proof.
  assert (Hr : (verify_load without_webgpu (boot ∅)).1 = Ok tt)
    by (vm_compute; reflexivity).
  split; [exact Hr|].
  rewrite (verify_load_report without_webgpu ∅ Hr). vm_compute. reflexivity.
Defined.

(** ** What [verify_level_2] reads and prints *)

(** When [verify_level_2] returns, the one line it has printed is ["Level
    Text: "] followed by the text of the first element matching
    ["#level-display"] as the page had it when it was read.  The screenshot
    is taken before the text is read: when reading the text fails, the image
    has been written all the same and nothing has been printed. *)
Theorem verify_level_2_prints_level_text env disk :
  let w' := (verify_level_2_main env (boot disk)).2 in
  ((verify_level_2_main env (boot disk)).1 = Ok tt →
     ∃ el, query "#level-display"
             (dom (page (env level_2_calls_before_text (InnerText "#level-display"))))
           = Some el ∧
           stdout (py w') = ["Level Text: " +:+ el_text el]) ∧
  (∀ k, first_failure (steps w') = Some (5%nat, InnerText "#level-display", k) →
     stdout (py w') = [] ∧
     ∃ past, fs w' !! "verification/level2_asteroids.png"
             = Some (pixels (page (env past
                                     (Screenshot "verification/level2_asteroids.png"))))).
Proof.
  change (wp (verify_level_2_main env) (boot disk) (λ r w',
    (r = Ok tt →
       ∃ el, query "#level-display"
               (dom (page (env level_2_calls_before_text (InnerText "#level-display"))))
             = Some el ∧
             stdout (py w') = ["Level Text: " +:+ el_text el]) ∧
    (∀ k, first_failure (steps w') = Some (5%nat, InnerText "#level-display", k) →
       stdout (py w') = [] ∧
       ∃ past, fs w' !! "verification/level2_asteroids.png"
               = Some (pixels (page (env past
                                       (Screenshot "verification/level2_asteroids.png"))))))).
  unfold verify_level_2_main, verify_level_2. wp_run.
  all: split; [intros Hr; try discriminate Hr|intros k' Hff; try discriminate Hff].
  all: autorewrite with listeners; cbn [stdout].
  all: try (split; [reflexivity|];
            match goal with
            | H : ?e ?h (Screenshot _) = _ |- _ =>
                exists h; rewrite H; cbn; apply lookup_insert_eq
            end).
  unfold level_2_calls_before_text. use_env. cbn [page].
  eexists. split; [eassumption|reflexivity].
Qed.

Lemma verify_level_2_prints_level_text_witness :
  (verify_level_2_main calm (boot ∅)).1 = Ok tt ∧
  stdout (py (verify_level_2_main calm (boot ∅)).2) = ["Level Text: Level 1"] ∧
  first_failure (steps (verify_level_2_main no_level_display (boot ∅)).2)
    = Some (5%nat, InnerText "#level-display", TimeoutError) ∧
  stdout (py (verify_level_2_main no_level_display (boot ∅)).2) = [] ∧
  ∃ past, fs (verify_level_2_main no_level_display (boot ∅)).2
            !! "verification/level2_asteroids.png"
          = Some (pixels (page (no_level_display past
                                  (Screenshot "verification/level2_asteroids.png")))).
Proof.
  assert (Hr : (verify_level_2_main calm (boot ∅)).1 = Ok tt)
    by (vm_compute; reflexivity).
  assert (Hff : first_failure (steps (verify_level_2_main no_level_display (boot ∅)).2)
    = Some (5%nat, InnerText "#level-display", TimeoutError))
    by (vm_compute; reflexivity).
  pose proof (verify_level_2_prints_level_text calm ∅) as Hc. cbv zeta in Hc.
  pose proof (verify_level_2_prints_level_text no_level_display ∅) as Hn. cbv zeta in Hn.
  split; [exact Hr|]. split.
  { destruct (proj1 Hc Hr) as (el & Hq & Hout). rewrite Hout.
    vm_compute in Hq. injection Hq as <-. reflexivity. }
  split; [exact Hff|].
  exact (proj2 Hn TimeoutError Hff).
Defined.

(** ** What [verify_horizon] echoes from the console *)

Lemma stdout_dispatch_horizon s evs :
  stdout (foldl (dispatch [OnConsole horizon_console_handler]) s evs)
  = stdout s ++ omap console_line evs.
Proof.
  revert s. induction evs as [|ev evs IH]; intros s; cbn [foldl omap list_omap].
  - by rewrite app_nil_r.
  - rewrite IH. destruct ev as [msg|exc]; cbn.
    + by rewrite <- app_assoc.
    + done.
Qed.

Lemma console_line_is_console_line ev line :
  console_line ev = Some line → is_console_line line = true.
Proof.
  destruct ev as [msg|exc]; [|done]. intros [= <-].
  unfold is_console_line. by destruct (msg_text msg).
Qed.

Lemma filter_console_lines evs :
  List.filter is_console_line (omap console_line evs) = omap console_line evs.
Proof.
  induction evs as [|ev evs IH]; [done|]. cbn [omap list_omap].
  destruct (console_line ev) as [line|] eqn:Hl; [|exact IH].
  cbn [List.filter]. rewrite (console_line_is_console_line ev line Hl). by rewrite IH.
Qed.

(** The console listener of [verify_horizon] echoes every console message,
    of whatever type, that the page logs during the page calls of the run:
    the lines of the output that start with ["Console: "] are exactly those
    messages, in the order they were logged.  Page errors are not echoed. *)
Theorem verify_horizon_echoes_console env disk :
  List.filter is_console_line (stdout (py (verify_horizon_main env (boot disk)).2))
  = omap console_line (heard env [] (history (verify_horizon_main env (boot disk)).2)).
Proof.
  change (wp (verify_horizon_main env) (boot disk) (λ _ w',
    List.filter is_console_line (stdout (py w'))
    = omap console_line (heard env [] (trace w').*1))).
  unfold verify_horizon_main, verify_horizon. wp_run.
  all: use_env; cbn [emitted].
  all: autorewrite with listeners; rewrite ?stdout_dispatch_horizon; cbn [stdout].
  all: rewrite ?List.filter_app, ?filter_console_lines, ?omap_app, ?app_nil_r.
  all: cbn [List.filter app]; rewrite <- ?app_assoc; reflexivity.
Qed.

(** ** The image each of the other scripts writes *)

Lemma verify_horizon_main_files env disk :
  writes_only env (verify_horizon_main env) "verification/level3_horizon.png" disk.
Proof.
  change (wp (verify_horizon_main env) (boot disk) (λ _ w',
    (∀ q, q ≠ "verification/level3_horizon.png" → fs w' !! q = disk !! q) ∧
    ((Screenshot "verification/level3_horizon.png", None) ∈ trace w' →
       ∃ past, fs w' !! "verification/level3_horizon.png"
               = Some (pixels (page (env past
                                       (Screenshot "verification/level3_horizon.png"))))) ∧
    ((Screenshot "verification/level3_horizon.png", None) ∉ trace w' → fs w' = disk))).
  unfold verify_horizon_main, verify_horizon. wp_run.
  all: shot_case.
Qed.

Lemma verify_level_2_main_files env disk :
  writes_only env (verify_level_2_main env) "verification/level2_asteroids.png" disk.
Proof.
  change (wp (verify_level_2_main env) (boot disk) (λ _ w',
    (∀ q, q ≠ "verification/level2_asteroids.png" → fs w' !! q = disk !! q) ∧
    ((Screenshot "verification/level2_asteroids.png", None) ∈ trace w' →
       ∃ past, fs w' !! "verification/level2_asteroids.png"
               = Some (pixels (page (env past
                                       (Screenshot "verification/level2_asteroids.png"))))) ∧
    ((Screenshot "verification/level2_asteroids.png", None) ∉ trace w' → fs w' = disk))).
  unfold verify_level_2_main, verify_level_2. wp_run.
  all: shot_case.
Qed.

Lemma verify_load_files env disk :
  writes_only env (verify_load env) "verification/screenshot.png" disk.
Proof.
  change (wp (verify_load env) (boot disk) (λ _ w',
    (∀ q, q ≠ "verification/screenshot.png" → fs w' !! q = disk !! q) ∧
    ((Screenshot "verification/screenshot.png", None) ∈ trace w' →
       ∃ past, fs w' !! "verification/screenshot.png"
               = Some (pixels (page (env past
                                       (Screenshot "verification/screenshot.png"))))) ∧
    ((Screenshot "verification/screenshot.png", None) ∉ trace w' → fs w' = disk))).
  unfold verify_load, verify_load_body. wp_run.
  all: shot_case.
Qed.

Lemma verify_reentry_files env disk :
  writes_only env (verify_reentry env) "verification/reentry_effect.png" disk.
Proof.
  change (wp (verify_reentry env) (boot disk) (λ _ w',
    (∀ q, q ≠ "verification/reentry_effect.png" → fs w' !! q = disk !! q) ∧
    ((Screenshot "verification/reentry_effect.png", None) ∈ trace w' →
       ∃ past, fs w' !! "verification/reentry_effect.png"
               = Some (pixels (page (env past
                                       (Screenshot "verification/reentry_effect.png"))))) ∧
    ((Screenshot "verification/reentry_effect.png", None) ∉ trace w' → fs w' = disk))).
  unfold verify_reentry. wp_run.
  all: shot_case.
Qed.

(** The horizon, level-2, load and reentry scripts each write one image, at
    a path of their own: the file holds the screenshot when the Screenshot
    step went through, the disk is unchanged when it did not, and no other
    file is ever written or removed. *)
Theorem scripts_write_only_their_image env disk :
  writes_only env (verify_horizon_main env) "verification/level3_horizon.png" disk ∧
  writes_only env (verify_level_2_main env) "verification/level2_asteroids.png" disk ∧
  writes_only env (verify_load env) "verification/screenshot.png" disk ∧
  writes_only env (verify_reentry env) "verification/reentry_effect.png" disk.
Proof.
  split; [apply verify_horizon_main_files|].
  split; [apply verify_level_2_main_files|].
  split; [apply verify_load_files|apply verify_reentry_files].
Qed.

Lemma scripts_write_only_their_image_witness :
  (Screenshot "verification/reentry_effect.png", None)
    ∈ trace (verify_reentry layered (boot used_disk)).2 ∧
  (∃ past, fs (verify_reentry layered (boot used_disk)).2
             !! "verification/reentry_effect.png"
           = Some (pixels (page (layered past
                                   (Screenshot "verification/reentry_effect.png"))))) ∧
  fs (verify_reentry layered (boot used_disk)).2 !! "verification/level1.png"
    = used_disk !! "verification/level1.png" ∧
  ((Screenshot "verification/screenshot.png", None)
     ∉ trace (verify_load flaky (boot used_disk)).2) ∧
  fs (verify_load flaky (boot used_disk)).2 = used_disk.
Proof.
  assert (Hin : (Screenshot "verification/reentry_effect.png", None)
    ∈ trace (verify_reentry layered (boot used_disk)).2).
  { vm_compute. find_entry. }
  assert (Hout : (Screenshot "verification/screenshot.png", None)
    ∉ trace (verify_load flaky (boot used_disk)).2).
  { vm_compute. intros Hx. trace_cases Hx. }
  destruct (scripts_write_only_their_image layered used_disk) as (_ & _ & _ & Hr).
  destruct (scripts_write_only_their_image flaky used_disk) as (_ & _ & Hl & _).
  split; [exact Hin|].
  split; [exact (proj1 (proj2 Hr) Hin)|].
  split; [exact (proj1 Hr "verification/level1.png" ltac:(discriminate))|].
  split; [exact Hout|].
  exact (proj2 (proj2 Hl) Hout).
Defined.

(** ** The visibility check of the horizon script only reports *)

(** Once [verify_horizon] has asked whether the instructions are visible, it
    prints the answer as ["Instructions visible: True"] or [... False]: the
    answer is whether the first element matching ["#instructions"] was
    displayed at that moment, and [False] when there is no such element (no
    exception is raised for a missing element).  Whatever the answer, the
    script goes on to the injected click. *)
Theorem verify_horizon_reports_visibility env disk :
  (IsVisible "#instructions", None) ∈ trace (verify_horizon_main env (boot disk)).2 →
  ("Instructions visible: " +:+
     str_bool (from_option visible false
                 (query "#instructions"
                    (dom (page (env horizon_calls_before_visible
                                  (IsVisible "#instructions")))))))
    ∈ stdout (py (verify_horizon_main env (boot disk)).2) ∧
  ∃ o, (Evaluate click_instructions_js, o) ∈ trace (verify_horizon_main env (boot disk)).2.
Proof.
  change (wp (verify_horizon_main env) (boot disk) (λ _ w',
    (IsVisible "#instructions", None) ∈ trace w' →
    ("Instructions visible: " +:+
       str_bool (from_option visible false
                   (query "#instructions"
                      (dom (page (env horizon_calls_before_visible
                                    (IsVisible "#instructions")))))))
      ∈ stdout (py w') ∧
    ∃ o, (Evaluate click_instructions_js, o) ∈ trace w')).
  unfold verify_horizon_main, verify_horizon. wp_run.
  all: intros Hin; try solve [trace_cases Hin].
  all: unfold horizon_calls_before_visible; use_env; cbn [page].
  all: rewrite ?stdout_dispatch_horizon; cbn [stdout].
  all: split; [|eexists; find_entry].
  all: rewrite ?elem_of_app, ?list_elem_of_singleton; eauto 20.
Qed.

Lemma verify_horizon_reports_visibility_witness :
  (IsVisible "#instructions", None) ∈ trace (verify_horizon_main veiled (boot ∅)).2 ∧
  "Instructions visible: False" ∈ stdout (py (verify_horizon_main veiled (boot ∅)).2) ∧
  ∃ o, (Evaluate click_instructions_js, o) ∈ trace (verify_horizon_main veiled (boot ∅)).2.
Proof.
  assert (Hin : (IsVisible "#instructions", None)
                ∈ trace (verify_horizon_main veiled (boot ∅)).2).
  { vm_compute. find_entry. }
  split; [exact Hin|].
  exact (verify_horizon_reports_visibility veiled ∅ Hin).
Defined.

(** ** The unforced click of the asteroid script *)

(** [verify_asteroids] clicks the instructions without force.  On a page
    where the instructions are fully covered by another element when the
    click is made, a run that got as far as the click fails there, at its
    third step: nothing is clicked and no screenshot is written. *)
Theorem verify_asteroids_stops_at_covered_click env disk t o :
  (WaitForSelector "canvas" None, None) ∈ trace (verify_asteroid_main env (boot disk)).2 →
  query "#instructions"
    (dom (page (env asteroid_calls_before_click (Click "#instructions" false)))) = Some t →
  o ∈ dom (page (env asteroid_calls_before_click (Click "#instructions" false))) →
  covers o t = true →
  (∃ k, first_failure (steps (verify_asteroid_main env (boot disk)).2)
        = Some (2%nat, Click "#instructions" false, k)) ∧
  clicks (verify_asteroid_main env (boot disk)).2 = [] ∧
  fs (verify_asteroid_main env (boot disk)).2 = disk.
Proof.
  intros Hin Hq Ho Hc. revert Hin Hq Ho.
  change (wp (verify_asteroid_main env) (boot disk) (λ _ w',
    (WaitForSelector "canvas" None, None) ∈ trace w' →
    query "#instructions"
      (dom (page (env asteroid_calls_before_click (Click "#instructions" false)))) = Some t →
    o ∈ dom (page (env asteroid_calls_before_click (Click "#instructions" false))) →
    (∃ k, first_failure (steps w') = Some (2%nat, Click "#instructions" false, k)) ∧
    clicks w' = [] ∧ fs w' = disk)).
  unfold verify_asteroid_main, verify_asteroids. wp_run.
  all: intros Hin; try solve [trace_cases Hin].
  all: unfold asteroid_calls_before_click; use_env; cbn [page]; intros Hq Ho.
  all: try (split; [by eexists|done]).
  all: exfalso.
  all: match goal with
       | H1 : query "#instructions" ?d = Some ?e0, H2 : actionable ?e0 ?d = true |- _ =>
           rewrite Hq in H1; injection H1 as <-;
           rewrite (covered_not_actionable o t d Ho Hc) in H2; discriminate H2
       end.
Qed.

Lemma verify_asteroids_stops_at_covered_click_witness :
  (WaitForSelector "canvas" None, None)
    ∈ trace (verify_asteroid_main layered (boot ∅)).2 ∧
  covers overlay_el instructions_el = true ∧
  (∃ k, first_failure (steps (verify_asteroid_main layered (boot ∅)).2)
        = Some (2%nat, Click "#instructions" false, k)) ∧
  clicks (verify_asteroid_main layered (boot ∅)).2 = [] ∧
  fs (verify_asteroid_main layered (boot ∅)).2 = ∅.
Proof.
  assert (Hin : (WaitForSelector "canvas" None, None)
                ∈ trace (verify_asteroid_main layered (boot ∅)).2).
  { vm_compute. find_entry. }
  split; [exact Hin|]. split; [reflexivity|].
  apply (verify_asteroids_stops_at_covered_click layered ∅ instructions_el overlay_el Hin).
  - reflexivity.
  - apply list_elem_of_In. right. right. left. exact eq_refl.
  - reflexivity.
Defined.

(** ** The waterfall script never reports a failure *)

Lemma query_by_id name d e : query ("#" +:+ name) d = Some e → el_id e = name.
Proof.
  unfold query. intros Hf. apply List.find_some in Hf as [_ Hm].
  cbn in Hm. by apply bool_decide_eq_true in Hm.
Qed.

(** Once the page is open, [run] of the waterfall script always returns:
    every failure of a step is swallowed by its [except] clause.  When no
    step failed it has printed ["Screenshot Level 1 taken"] and the page has
    received exactly one click, on the instructions: the injected script,
    which consists of comments, clicks nothing.  When a step failed it has
    printed one line only, ["Error: "] followed by the message of the
    exception which that step raised. *)
Theorem run_always_returns env disk :
  (NewPage, None) ∈ trace (run env (boot disk)).2 →
  (run env (boot disk)).1 = Ok tt ∧
  match first_failure (steps (run env (boot disk)).2) with
  | None => stdout (py (run env (boot disk)).2) = ["Screenshot Level 1 taken"] ∧
            clicks (run env (boot disk)).2 = ["instructions"]
  | Some (i, c, k) =>
      ∃ msg, raised env (prelude (Some true) ++ take i (plan Waterfall)) c = Some (k, msg) ∧
             stdout (py (run env (boot disk)).2) = ["Error: " +:+ msg]
  end.
Proof.
  assert (Hwp : (NewPage, None) ∈ trace (run env (boot disk)).2 →
    (run env (boot disk)).1 = Ok tt ∧
    (first_failure (steps (run env (boot disk)).2) = None →
     stdout (py (run env (boot disk)).2) = ["Screenshot Level 1 taken"] ∧
     clicks (run env (boot disk)).2 = ["instructions"])).
  { change (wp (run env) (boot disk) (λ r w',
      (NewPage, None) ∈ trace w' →
      r = Ok tt ∧
      (first_failure (steps w') = None →
       stdout (py w') = ["Screenshot Level 1 taken"] ∧
       clicks w' = ["instructions"]))).
    unfold run, run_body. wp_run.
    all: intros Hin; try solve [trace_cases Hin].
    all: split; [reflexivity|]; intros Hff; try discriminate Hff.
    autorewrite with listeners; cbn [stdout app].
    split; [reflexivity|].
    match goal with
    | H : query "#instructions" _ = Some ?e |- _ =>
        by rewrite (query_by_id "instructions" _ e H)
    end. }
  intros Hin. destruct (Hwp Hin) as [Hr Hnone]. split; [exact Hr|].
  destruct (first_failure (steps (run env (boot disk)).2)) as [[[i c] k]|] eqn:Hff.
  - destruct (run_failure env disk i c k Hff) as (_ & _ & _ & _ & Hmsg). exact Hmsg.
  - by apply Hnone.
Qed.

Lemma run_always_returns_witness :
  (NewPage, None) ∈ trace (run calm (boot ∅)).2 ∧
  (run calm (boot ∅)).1 = Ok tt ∧
  stdout (py (run calm (boot ∅)).2) = ["Screenshot Level 1 taken"] ∧
  (NewPage, None) ∈ trace (run flaky (boot ∅)).2 ∧
  (run flaky (boot ∅)).1 = Ok tt ∧
  first_failure (steps (run flaky (boot ∅)).2)
    = Some (1%nat, WaitForSelector "#glCanvas" None, TimeoutError) ∧
  ∃ msg, raised flaky (prelude (Some true) ++ take 1 (plan Waterfall))
                (WaitForSelector "#glCanvas" None) = Some (TimeoutError, msg) ∧
         stdout (py (run flaky (boot ∅)).2) = ["Error: " +:+ msg].
Proof.
  assert (Hc : (NewPage, None) ∈ trace (run calm (boot ∅)).2)
    by (vm_compute; find_entry).
  assert (Hf : (NewPage, None) ∈ trace (run flaky (boot ∅)).2)
    by (vm_compute; find_entry).
  assert (Hff : first_failure (steps (run flaky (boot ∅)).2)
                = Some (1%nat, WaitForSelector "#glCanvas" None, TimeoutError))
    by (vm_compute; reflexivity).
  split; [exact Hc|].
  split; [exact (proj1 (run_always_returns calm ∅ Hc))|].
  split; [vm_compute; reflexivity|].
  split; [exact Hf|].
  split; [exact (proj1 (run_always_returns flaky ∅ Hf))|].
  split; [exact Hff|].
  exact (proj2 (run_always_returns flaky ∅ Hf)).
Defined.
